(** * skelly: the default agent responder and the Python edge-case fixture

    A shallow embedding of [.skelly/default_agent.py] and
    [fixtures/python/edge_cases.py], and the properties of both that the
    specification states.

    A Python [str] is a finite sequence of Unicode code points; it is
    modelled as a list of code points ([N]).  Text literals of the sources
    are written as Rocq strings and injected with [lit]. *)

From Stdlib Require Import List NArith ZArith Bool Lia.
From Stdlib Require Import Ascii String.
From Stdlib Require Import DecimalString.
From Stdlib Require Import Floats.SpecFloat.
Import ListNotations.

Set Implicit Arguments.
Set Warnings "-register-all,-abstract-large-number".
Local Open Scope N_scope.
Local Open Scope list_scope.

(** ** Python strings *)

Module PyStr.

Definition char := N.
Definition pystr := list char.

Definition lit (s : string) : pystr :=
  map N_of_ascii (list_ascii_of_string s).

Definition str_eqb (a b : pystr) : bool :=
  if list_eq_dec N.eq_dec a b then true else false.

(** [sep.join(parts)]. *)
Fixpoint join (sep : pystr) (parts : list pystr) : pystr :=
  match parts with
  | [] => []
  | [p] => p
  | p :: rest => p ++ sep ++ join sep rest
  end.

(** [s.split(sep)] for a one-character separator: the pieces between the
    occurrences of [sep], empty pieces included. *)
Fixpoint split (sep : char) (s : pystr) : list pystr :=
  match s with
  | [] => [[]]
  | c :: rest =>
      if N.eqb c sep then [] :: split sep rest
      else match split sep rest with
           | [] => [[c]]
           | p :: ps => (c :: p) :: ps
           end
  end.

(** The code points for which [str.isspace] holds, the set [str.strip()]
    removes: CPython's [_PyUnicode_IsWhitespace]. *)
Definition isspace (c : char) : bool :=
  ((9 <=? c) && (c <=? 13)) || ((28 <=? c) && (c <=? 32))
  || (c =? 133) || (c =? 160) || (c =? 5760)
  || ((8192 <=? c) && (c <=? 8202))
  || (c =? 8232) || (c =? 8233) || (c =? 8239) || (c =? 8287)
  || (c =? 12288).

Fixpoint dropwhile (p : char -> bool) (s : pystr) : pystr :=
  match s with
  | [] => []
  | c :: rest => if p c then dropwhile p rest else s
  end.

Definition lstrip (s : pystr) : pystr := dropwhile isspace s.
Definition rstrip (s : pystr) : pystr := rev (dropwhile isspace (rev s)).

(** [s.strip()]: whitespace removed at both ends. *)
Definition strip (s : pystr) : pystr := rstrip (lstrip s).

(** [s.replace(old, new)] for one-character [old] and [new]. *)
Definition replace (old new : char) (s : pystr) : pystr :=
  map (fun c => if N.eqb c old then new else c) s.

Definition hyphen : char := 45.
Definition underscore : char := 95.

(** A text literal of the sources that holds double quotes, written here
    with single quotes in their place. *)
Definition jlit (s : string) : pystr := replace 39 34 (lit s).

(** Observations on a string: whether it starts with white space, whether
    it is free of white space at both ends, whether a character occurs in
    it, whether it is ASCII, whether it is printable ASCII. *)
Definition head_space (s : pystr) : bool :=
  match s with
  | c :: _ => isspace c
  | [] => false
  end.

Definition stripped (s : pystr) : bool :=
  negb (head_space s) && negb (head_space (rev s)).

Definition has_char (c : char) (s : pystr) : bool := existsb (N.eqb c) s.

Definition is_ascii (s : pystr) : bool := forallb (fun c => c <? 128) s.

Definition is_printable_ascii (s : pystr) : bool :=
  forallb (fun c => (32 <=? c) && (c <=? 126)) s.

(** [s in t]: [s] is a substring of [t]. *)
Definition occurs_in (s t : pystr) : Prop :=
  exists pre post, t = pre ++ s ++ post.

End PyStr.
Import PyStr.

(** ** fixtures/python/edge_cases.py *)

Module EdgeCases.

(** [def normalize(value)]: [value.strip().replace("-", "_")]. *)
Definition normalize (value : pystr) : pystr :=
  let text := strip value in
  replace hyphen underscore text.

(** [str.upper] maps every code point through the full upper-case mapping
    of the Unicode character database, which may yield several code points
    for one.  The table belongs to the interpreter and is a parameter here. *)
Section Runner.

Variable toupper_full : char -> pystr.

Definition upper (s : pystr) : pystr := flat_map toupper_full s.

(** [Runner.run(self, value)]; the class holds no data, so [self] carries
    nothing. *)
Definition run (value : pystr) : pystr :=
  let cleaned := normalize value in
  upper cleaned.

End Runner.

(** The upper-case mapping restricted to ASCII, where it is the familiar
    one; used to run [run] on ASCII text. *)
Definition toupper_ascii (c : char) : pystr :=
  if (97 <=? c) && (c <=? 122) then [c - 32] else [c].

(** The part of the process environment [use_path] reads. *)
Record process := { cwd : pystr }.

Definition getcwd (p : process) : pystr := cwd p.
Definition chdir (d : pystr) (p : process) : process := {| cwd := d |}.

Definition slash : char := 47.

(** [posixpath.splitroot]: the root (no, one or exactly two slashes) and
    the rest of the path. *)
Definition splitroot (p : pystr) : pystr * pystr :=
  match p with
  | c0 :: r1 =>
      if negb (c0 =? slash) then ([], p)
      else
        match r1 with
        | c1 :: r2 =>
            if negb (c1 =? slash) then ([slash], r1)
            else match r2 with
                 | c2 :: _ =>
                     if c2 =? slash then ([slash], r1)
                     else ([slash; slash], r2)
                 | [] => ([slash; slash], r2)
                 end
        | [] => ([slash], r1)
        end
  | [] => ([], p)
  end.

(** [str(Path(p))] on a POSIX system: the parts that are empty or [.] are
    dropped, the root is kept, and the empty path is written [.]. *)
Definition path_str (p : pystr) : pystr :=
  let '(root, rel) := splitroot p in
  let tail :=
    filter (fun x => negb (str_eqb x []) && negb (str_eqb x (lit ".")))
           (split slash rel) in
  let s := root ++ join [slash] tail in
  match s with
  | [] => lit "."
  | _ => s
  end.

(** [def use_path()]: the working directory is read from the process at
    every call; the process is returned unchanged. *)
Definition use_path (p : process) : pystr * process :=
  (path_str (getcwd p), p).

End EdgeCases.

(** ** Python values, exceptions and the script monad *)

Module Py.

(** The values [json.load] builds: [None], [bool], [int], [float], [str],
    [list] and [dict] with [str] keys.  A [dict] keeps its items in insertion
    order; the parser never produces two items with one key. *)
Inductive value :=
| VNone
| VBool (b : bool)
| VInt (z : Z)
| VFloat (f : spec_float)
| VStr (s : pystr)
| VList (l : list value)
| VDict (d : list (pystr * value)).

(** The exceptions of the script: those [json.load] may raise, and the one
    an attribute that is not there raises. *)
Inductive exn :=
| JSONDecodeError
| UnicodeDecodeError
| RecursionError
| ValueError
| AttributeError.

Inductive result (A : Type) :=
| Ok (a : A)
| Raise (e : exn).
Arguments Ok {A} a.
Arguments Raise {A} e.

(** A script step threads the text written to standard output so far; a
    raised exception keeps what was already written. *)
Definition script (A : Type) := pystr -> result A * pystr.

Definition lift {A} (r : result A) : script A := fun out => (r, out).
Definition bind {A B} (m : script A) (k : A -> script B) : script B :=
  fun out =>
    match m out with
    | (Ok a, out') => k a out'
    | (Raise e, out') => (Raise e, out')
    end.

Definition rbind {A B} (r : result A) (k : A -> result B) : result B :=
  match r with
  | Ok a => k a
  | Raise e => Raise e
  end.

Notation "x <- m ;; k" := (bind m (fun x => k))
  (at level 61, m at next level, right associativity).
Notation "x <~ r ;; k" := (rbind r (fun x => k))
  (at level 61, r at next level, right associativity).

(** [print(s)]: [s] and a newline are appended to standard output. *)
Definition print (s : pystr) : script unit :=
  fun out => (Ok tt, out ++ s ++ [10]).

(** What is observed of a finished process.  An exception nobody catches
    ends the interpreter with status 1 (the traceback goes to standard
    error). *)
Record outcome := {
  stdout : pystr;
  uncaught : option exn;
  exit_status : N
}.

Definition exec (m : script unit) : outcome :=
  match m [] with
  | (Ok _, out) => {| stdout := out; uncaught := None; exit_status := 0 |}
  | (Raise e, out) => {| stdout := out; uncaught := Some e; exit_status := 1 |}
  end.

(** Truth value of an object, as [or] tests it. *)
Definition truthy (v : value) : bool :=
  match v with
  | VNone => false
  | VBool b => b
  | VInt z => negb (Z.eqb z 0)
  | VFloat (S754_zero _) => false
  | VFloat _ => true
  | VStr s => negb (str_eqb s [])
  | VList l => match l with [] => false | _ => true end
  | VDict d => match d with [] => false | _ => true end
  end.

(** [a or b]. *)
Definition por (a b : value) : value := if truthy a then a else b.

Fixpoint lookup (key : pystr) (d : list (pystr * value)) : option value :=
  match d with
  | [] => None
  | (k, v) :: rest => if str_eqb k key then Some v else lookup key rest
  end.

(** [dict.get(d, key, default)]. *)
Definition dict_get (d : list (pystr * value)) (key : pystr) (default : value)
  : value :=
  match lookup key d with
  | Some v => v
  | None => default
  end.

(** [obj.get(key, default)]: only a [dict] has the method; looking it up on
    any other object raises [AttributeError]. *)
Definition get (obj : value) (key : pystr) (default : value) : result value :=
  match obj with
  | VDict d => Ok (dict_get d key default)
  | _ => Raise AttributeError
  end.

(** [str(z)] for an [int]. *)
Definition int_str (z : Z) : pystr :=
  lit (NilZero.string_of_int (Z.to_int z)).

(** The lower-case hexadecimal digit of a number below 16. *)
Definition hexdigit (d : N) : char :=
  if d <? 10 then 48 + d else 87 + d.

(** ['{0:04x}'.format(n)] for [n < 0x10000], the only range the encoder
    applies it to. *)
Definition hex4 (n : N) : pystr :=
  [hexdigit (N.land (N.shiftr n 12) 15); hexdigit (N.land (N.shiftr n 8) 15);
   hexdigit (N.land (N.shiftr n 4) 15); hexdigit (N.land n 15)].

Definition backslash : char := 92.
Definition dquote : char := 34.

(** The escape [\uXXXX] of a UTF-16 code unit, and the two surrogates of a
    code point above the basic plane. *)
Definition u_escape (n : N) : pystr := backslash :: lit "u" ++ hex4 n.

Definition high_surrogate (c : char) : N :=
  N.lor 55296 (N.land (N.shiftr (c - 65536) 10) 1023).

Definition low_surrogate (c : char) : N :=
  N.lor 56320 (N.land (c - 65536) 1023).

(** The replacement [json.encoder.py_encode_basestring_ascii] makes for one
    code point: the printable ASCII range is kept, except the backslash and
    the double quote; the short escapes; [\uXXXX] for the rest, written as a
    surrogate pair above the basic plane. *)
Definition escape_ascii (c : char) : pystr :=
  if c =? backslash then [backslash; backslash]
  else if c =? dquote then [backslash; dquote]
  else if (32 <=? c) && (c <=? 126) then [c]
  else if c =? 8 then backslash :: lit "b"
  else if c =? 12 then backslash :: lit "f"
  else if c =? 10 then backslash :: lit "n"
  else if c =? 13 then backslash :: lit "r"
  else if c =? 9 then backslash :: lit "t"
  else if c <? 65536 then u_escape c
  else u_escape (high_surrogate c) ++ u_escape (low_surrogate c).

Definition encode_basestring_ascii (s : pystr) : pystr :=
  dquote :: flat_map escape_ascii s ++ [dquote].

(** The interpreter's [repr] of a [float] and of a [str] (the shortest
    round-tripping decimal; the quoting that depends on the Unicode
    database) are parameters. *)
Section Interp.

Variable float_repr : spec_float -> pystr.
Variable str_repr : pystr -> pystr.

(** [repr(v)]; [in_container] tells whether [v] is an item of a list or a
    dict, where a [str] is shown quoted. [str(v)] is [repr] outside a
    container. *)
Fixpoint show (in_container : bool) (v : value) : pystr :=
  match v with
  | VNone => lit "None"
  | VBool true => lit "True"
  | VBool false => lit "False"
  | VInt z => int_str z
  | VFloat f => float_repr f
  | VStr s => if in_container then str_repr s else s
  | VList l => lit "[" ++ join (lit ", ") (map (show true) l) ++ lit "]"
  | VDict d =>
      lit "{" ++
      join (lit ", ")
        ((fix items (d : list (pystr * value)) : list pystr :=
            match d with
            | [] => []
            | (k, x) :: rest =>
                (str_repr k ++ lit ": " ++ show true x) :: items rest
            end) d)
      ++ lit "}"
  end.

(** [format(v, "")], what a replacement field [{v}] of an f-string yields. *)
Definition format (v : value) : pystr := show false v.

(** [json.dumps(v)] with the default options ([ensure_ascii=True],
    separators [", "] and [": "]). *)
Fixpoint dumps (v : value) : pystr :=
  match v with
  | VNone => lit "null"
  | VBool true => lit "true"
  | VBool false => lit "false"
  | VInt z => int_str z
  | VFloat S754_nan => lit "NaN"
  | VFloat (S754_infinity false) => lit "Infinity"
  | VFloat (S754_infinity true) => lit "-Infinity"
  | VFloat f => float_repr f
  | VStr s => encode_basestring_ascii s
  | VList l => lit "[" ++ join (lit ", ") (map dumps l) ++ lit "]"
  | VDict d =>
      lit "{" ++
      join (lit ", ")
        ((fix items (d : list (pystr * value)) : list pystr :=
            match d with
            | [] => []
            | (k, x) :: rest =>
                (encode_basestring_ascii k ++ lit ": " ++ dumps x)
                :: items rest
            end) d)
      ++ lit "}"
  end.

End Interp.

End Py.
Import Py.

(** ** .skelly/default_agent.py *)

Module DefaultAgent.

Section Agent.

(** [json.load(sys.stdin)] reads standard input to its end and parses it;
    it is the library's and is a parameter, as are the two [repr]s. *)
Variable json_load : list Byte.byte -> result value.
Variable float_repr : spec_float -> pystr.
Variable str_repr : pystr -> pystr.

Definition empty_dict : value := VDict [].

(** The f-strings of lines 12 and 13. *)
Definition summary_text (name kind path : value) : pystr :=
  let f := format float_repr str_repr in
  f kind ++ lit " " ++ f name ++ lit " in " ++ f path ++ lit ".".

Definition purpose_text (name : value) : pystr :=
  let f := format float_repr str_repr in
  lit "Describe responsibilities of " ++ f name ++ lit ".".

(** Lines 11 to 16: the response dict, built from the three fields. *)
Definition response_of (name kind path : value) : value :=
  VDict
    [ (lit "summary", VStr (summary_text name kind path));
      (lit "purpose", VStr (purpose_text name));
      (lit "side_effects", VStr (lit "Unknown from static analysis."));
      (lit "confidence", VStr (lit "medium")) ].

(** Lines 7 to 9 on a symbol that is a dict with the items [d]. *)
Definition name_in (d : list (pystr * value)) : value :=
  dict_get d (lit "name") (VStr (lit "symbol")).
Definition kind_in (d : list (pystr * value)) : value :=
  dict_get d (lit "kind") (VStr (lit "symbol")).
Definition path_in (d : list (pystr * value)) : value :=
  dict_get d (lit "path") (VStr []).

(** Line 6: [(request.get("input") or {}).get("symbol") or {}]. *)
Definition symbol_of (request : value) : result value :=
  input <~ get request (lit "input") VNone ;;
  sym <~ get (por input empty_dict) (lit "symbol") VNone ;;
  Ok (por sym empty_dict).

(** Lines 6 to 16 on a parsed request. *)
Definition respond (request : value) : result value :=
  symbol <~ symbol_of request ;;
  name <~ get symbol (lit "name") (VStr (lit "symbol")) ;;
  kind <~ get symbol (lit "kind") (VStr (lit "symbol")) ;;
  path <~ get symbol (lit "path") (VStr []) ;;
  Ok (response_of name kind path).

(** Lines 6 to 17: the script after the request is parsed. *)
Definition answer (request : value) : script unit :=
  response <- lift (respond request) ;;
  print (dumps float_repr response).

(** The whole script. *)
Definition main (stdin : list Byte.byte) : script unit :=
  request <- lift (json_load stdin) ;;
  answer request.

Definition run_document (request : value) : outcome := exec (answer request).
Definition run (stdin : list Byte.byte) : outcome := exec (main stdin).

(** The requests the script answers: a [dict] whose ["input"] is missing,
    false in a test ([None], [False], zero, empty) or a [dict], and whose
    ["symbol"] therein is of the same kind. *)
Definition falsy_or_dict (v : value) : bool :=
  match v with
  | VDict _ => true
  | _ => negb (truthy v)
  end.

Definition member (key : pystr) (obj : value) : value :=
  match obj with
  | VDict d => dict_get d key VNone
  | _ => VNone
  end.

Definition answerable (request : value) : bool :=
  match request with
  | VDict _ =>
      let input := member (lit "input") request in
      falsy_or_dict input
      && falsy_or_dict (member (lit "symbol") (por input empty_dict))
  | _ => false
  end.

(** A dict with the four keys of a response, in their order, whose values
    are strings. *)
Definition four_strings (summary purpose side_effects confidence : pystr)
  : value :=
  VDict [ (lit "summary", VStr summary); (lit "purpose", VStr purpose);
          (lit "side_effects", VStr side_effects);
          (lit "confidence", VStr confidence) ].

(** The line that holds the JSON object of a response with the given summary
    and purpose, the keys in the order of construction. *)
Definition response_line (summary purpose : pystr) : pystr :=
  jlit "{'summary': " ++ encode_basestring_ascii summary
  ++ jlit ", 'purpose': " ++ encode_basestring_ascii purpose
  ++ jlit ", 'side_effects': 'Unknown from static analysis.'"
  ++ jlit ", 'confidence': 'medium'}".

(** The request of the specification's first example. *)
Definition widget_request : value :=
  VDict [ (lit "input",
           VDict [ (lit "symbol",
                    VDict [ (lit "name", VStr (lit "Widget"));
                            (lit "kind", VStr (lit "function"));
                            (lit "path", VStr (lit "pkg/widget.py")) ]) ]) ].

End Agent.

End DefaultAgent.

(** ** A reader for JSON text

    [json.load] is a parameter of the agent.  To run the script on concrete
    text the parameter is instantiated with this reader, which follows
    [json.decoder] on a fragment of JSON: ASCII text in which no number has
    a fraction or an exponent.  A text outside the fragment is refused. *)

Module JsonText.

Definition is_ws (c : char) : bool :=
  (c =? 32) || (c =? 9) || (c =? 10) || (c =? 13).

Fixpoint skip_ws (s : pystr) : pystr :=
  match s with
  | c :: r => if is_ws c then skip_ws r else s
  | [] => []
  end.

Definition is_digit (c : char) : bool := (48 <=? c) && (c <=? 57).

Definition hex_val (c : char) : option N :=
  if (48 <=? c) && (c <=? 57) then Some (c - 48)
  else if (97 <=? c) && (c <=? 102) then Some (c - 87)
  else if (65 <=? c) && (c <=? 70) then Some (c - 55)
  else None.

Definition hex4_val (a b c d : char) : option N :=
  match hex_val a, hex_val b, hex_val c, hex_val d with
  | Some x, Some y, Some z, Some w => Some (4096 * x + 256 * y + 16 * z + w)
  | _, _, _, _ => None
  end.

(** The character a backslash and [c] stand for, [\u] apart. *)
Definition simple_escape (c : char) : option char :=
  if (c =? dquote) || (c =? backslash) || (c =? 47) then Some c
  else if c =? 98 then Some 8
  else if c =? 102 then Some 12
  else if c =? 110 then Some 10
  else if c =? 114 then Some 13
  else if c =? 116 then Some 9
  else None.

Definition is_high_surrogate (u : N) : bool := (55296 <=? u) && (u <=? 56319).
Definition is_low_surrogate (u : N) : bool := (56320 <=? u) && (u <=? 57343).

Definition join_surrogates (hi lo : N) : char :=
  65536 + N.lor (N.shiftl (hi - 55296) 10) (lo - 56320).

(** The low surrogate escaped at the head of [s], when there is one. *)
Definition low_surrogate_at (s : pystr) : option (N * pystr) :=
  match s with
  | b :: u :: l1 :: l2 :: l3 :: l4 :: r =>
      if (b =? backslash) && (u =? 117) then
        match hex4_val l1 l2 l3 l4 with
        | Some lo => if is_low_surrogate lo then Some (lo, r) else None
        | None => None
        end
      else None
  | _ => None
  end.

(** The body of a string after its opening quote, up to the closing one
    ([json.decoder.py_scanstring]). *)
Fixpoint read_string (acc s : pystr) : option (pystr * pystr) :=
  match s with
  | [] => None
  | c :: r =>
      if c =? dquote then Some (rev acc, r)
      else if (c <? 32) || (127 <? c) then None
      else if negb (c =? backslash) then read_string (c :: acc) r
      else
        match r with
        | [] => None
        | e :: r1 =>
            if e =? 117 then
              match r1 with
              | h1 :: h2 :: h3 :: h4 :: r2 =>
                  match hex4_val h1 h2 h3 h4 with
                  | None => None
                  | Some u =>
                      match r2 with
                      | b :: u' :: l1 :: l2 :: l3 :: l4 :: r3 =>
                          match
                            (if is_high_surrogate u
                             then low_surrogate_at r2 else None)
                          with
                          | Some (lo, _) =>
                              read_string (join_surrogates u lo :: acc) r3
                          | None => read_string (u :: acc) r2
                          end
                      | _ => read_string (u :: acc) r2
                      end
                  end
              | _ => None
              end
            else
              match simple_escape e with
              | Some x => read_string (x :: acc) r1
              | None => None
              end
        end
  end.

Fixpoint read_digits (acc : Z) (s : pystr) : Z * pystr :=
  match s with
  | c :: r =>
      if is_digit c then read_digits (10 * acc + Z.of_N (c - 48))%Z r
      else (acc, s)
  | [] => (acc, [])
  end.

(** An integer [0] or [[1-9][0-9]*]; a fraction or an exponent after it
    leaves the fragment. *)
Definition read_nat (s : pystr) : option (Z * pystr) :=
  match s with
  | c :: r =>
      if negb (is_digit c) then None
      else
        let '(z, r') := if c =? 48 then (0%Z, r) else read_digits 0 s in
        match r' with
        | d :: _ =>
            if (d =? 46) || (d =? 101) || (d =? 69) then None
            else Some (z, r')
        | [] => Some (z, r')
        end
  | [] => None
  end.

Fixpoint starts_with (p s : pystr) : option pystr :=
  match p, s with
  | [], _ => Some s
  | a :: p', b :: s' => if a =? b then starts_with p' s' else None
  | _ :: _, [] => None
  end.

(** [d[k] = v]: an item with the key keeps its place and takes the new
    value, a new key goes last. *)
Fixpoint dict_set (k : pystr) (v : value) (d : list (pystr * value))
  : list (pystr * value) :=
  match d with
  | [] => [(k, v)]
  | (k', v') :: rest =>
      if str_eqb k' k then (k', v) :: rest else (k', v') :: dict_set k v rest
  end.

Section Containers.

Variable read_value : pystr -> option (value * pystr).

(** The items of an array after the first bracket and the white space that
    follows it. *)
Fixpoint read_items (fuel : nat) (acc : list value) (s : pystr)
  : option (list value * pystr) :=
  match fuel with
  | O => None
  | S fuel' =>
      match read_value s with
      | None => None
      | Some (v, r) =>
          match skip_ws r with
          | c :: r' =>
              if c =? 93 then Some (rev (v :: acc), r')
              else if c =? 44 then read_items fuel' (v :: acc) (skip_ws r')
              else None
          | [] => None
          end
      end
  end.

(** The members of an object, likewise. *)
Fixpoint read_members (fuel : nat) (acc : list (pystr * value)) (s : pystr)
  : option (list (pystr * value) * pystr) :=
  match fuel with
  | O => None
  | S fuel' =>
      match s with
      | c :: r =>
          if negb (c =? dquote) then None
          else
            match read_string [] r with
            | None => None
            | Some (k, r1) =>
                match skip_ws r1 with
                | c1 :: r2 =>
                    if negb (c1 =? 58) then None
                    else
                      match read_value (skip_ws r2) with
                      | None => None
                      | Some (v, r3) =>
                          match skip_ws r3 with
                          | c2 :: r4 =>
                              if c2 =? 125 then Some (dict_set k v acc, r4)
                              else if c2 =? 44 then
                                read_members fuel' (dict_set k v acc)
                                             (skip_ws r4)
                              else None
                          | [] => None
                          end
                      end
                | [] => None
                end
            end
      | [] => None
      end
  end.

End Containers.

Fixpoint read_value (fuel : nat) (s : pystr) : option (value * pystr) :=
  match fuel with
  | O => None
  | S fuel' =>
      match s with
      | [] => None
      | c :: r =>
          if c =? dquote then
            match read_string [] r with
            | Some (x, r') => Some (VStr x, r')
            | None => None
            end
          else if c =? 123 then
            match skip_ws r with
            | c' :: r' =>
                if c' =? 125 then Some (VDict [], r')
                else
                  match read_members (read_value fuel') (List.length r) []
                          (skip_ws r) with
                  | Some (d, r'') => Some (VDict d, r'')
                  | None => None
                  end
            | [] => None
            end
          else if c =? 91 then
            match skip_ws r with
            | c' :: r' =>
                if c' =? 93 then Some (VList [], r')
                else
                  match read_items (read_value fuel') (List.length r) []
                          (skip_ws r) with
                  | Some (l, r'') => Some (VList l, r'')
                  | None => None
                  end
            | [] => None
            end
          else
            match starts_with (lit "null") s, starts_with (lit "true") s,
                  starts_with (lit "false") s, starts_with (lit "NaN") s,
                  starts_with (lit "Infinity") s,
                  starts_with (lit "-Infinity") s with
            | Some r', _, _, _, _, _ => Some (VNone, r')
            | _, Some r', _, _, _, _ => Some (VBool true, r')
            | _, _, Some r', _, _, _ => Some (VBool false, r')
            | _, _, _, Some r', _, _ => Some (VFloat S754_nan, r')
            | _, _, _, _, Some r', _ => Some (VFloat (S754_infinity false), r')
            | _, _, _, _, _, Some r' => Some (VFloat (S754_infinity true), r')
            | _, _, _, _, _, _ =>
                if c =? 45 then
                  match read_nat r with
                  | Some (z, r') => Some (VInt (- z), r')
                  | None => None
                  end
                else
                  match read_nat s with
                  | Some (z, r') => Some (VInt z, r')
                  | None => None
                  end
            end
      end
  end.

(** [json.loads(text)]: one value, white space around it, nothing after. *)
Definition loads (text : pystr) : result value :=
  match read_value (S (List.length text)) (skip_ws text) with
  | Some (v, r) =>
      match skip_ws r with
      | [] => Ok v
      | _ => Raise JSONDecodeError
      end
  | None => Raise JSONDecodeError
  end.

Definition load (stdin : list Byte.byte) : result value :=
  loads (map Byte.to_N stdin).

(** The bytes of an ASCII text, and of one written with single quotes for
    its double quotes. *)
Definition bytes_of (s : string) : list Byte.byte := list_byte_of_string s.

Definition jbytes (s : string) : list Byte.byte :=
  map (fun b => if Byte.eqb b Byte.x27 then Byte.x22 else b) (bytes_of s).

(** The examples format no [float] and no container, so the two [repr]
    parameters are never consulted there; these fill their places. *)
Definition float_repr_unused (f : spec_float) : pystr := [].
Definition str_repr_unused (s : pystr) : pystr := [].

End JsonText.

(** ** Further observations on strings and requests *)

Module Observations.

(** Every character of [s] is white space. *)
Definition all_space (s : pystr) : bool := forallb isspace s.

(** Printable ASCII other than the double quote and the backslash: the
    characters the JSON encoder copies as they are. *)
Definition is_plain_char (c : char) : bool :=
  (32 <=? c) && (c <=? 126) && negb (c =? dquote) && negb (c =? backslash).

Definition is_plain (s : pystr) : bool := forallb is_plain_char s.

(** [s] between double quotes. *)
Definition quoted (s : pystr) : pystr := dquote :: s ++ [dquote].

(** Unicode scalar values: the code points up to 0x10FFFF that are not
    surrogates. *)
Definition is_scalar_char (c : char) : bool :=
  (c <? 55296) || ((57343 <? c) && (c <? 1114112)).

Definition is_scalar (s : pystr) : bool := forallb is_scalar_char s.

(** A request whose symbol has the items [d]. *)
Definition request_with (d : list (pystr * value)) : value :=
  VDict [(lit "input", VDict [(lit "symbol", VDict d)])].

(** A path made of a root slash and the components [parts]. *)
Definition absolute (parts : list pystr) : pystr :=
  EdgeCases.slash :: join [EdgeCases.slash] parts.

(** A component a normalised path may hold: not empty, not [.], and free
    of slashes. *)
Definition is_component (x : pystr) : bool :=
  negb (str_eqb x []) && negb (str_eqb x (lit "."))
  && negb (has_char EdgeCases.slash x).

End Observations.

(** * Properties *)

(** ** Strings *)

Module PyStrFacts.

Lemma dropwhile_suffix p s : exists pre, s = pre ++ dropwhile p s.
Proof.
  induction s as [|c r IH]; simpl.
  - now exists [].
  - destruct (p c).
    + destruct IH as [pre E]. exists (c :: pre). simpl. now f_equal.
    + now exists [].
Qed.

Lemma dropwhile_head p s : 
  match dropwhile p s with c :: _ => p c = false | [] => True end.
Proof.
  induction s as [|c r IH]; simpl; auto.
  destruct (p c) eqn:E; auto.
Qed.

Lemma dropwhile_id p s :
  match s with c :: _ => p c = false | [] => True end -> dropwhile p s = s.
Proof. destruct s as [|c r]; simpl; auto. now intros ->. Qed.

Lemma head_space_false_iff s :
  head_space s = false <->
  match s with c :: _ => isspace c = false | [] => True end.
Proof. destruct s; simpl; intuition. Qed.

Lemma lstrip_head s : head_space (lstrip s) = false.
Proof. apply head_space_false_iff, dropwhile_head. Qed.

Lemma rstrip_last s : head_space (rev (rstrip s)) = false.
Proof.
  unfold rstrip. rewrite rev_involutive.
  apply head_space_false_iff, dropwhile_head.
Qed.

Lemma rstrip_prefix s : exists post, s = rstrip s ++ post.
Proof.
  unfold rstrip. destruct (dropwhile_suffix isspace (rev s)) as [pre E].
  exists (rev pre).
  rewrite <- rev_app_distr, <- E. now rewrite rev_involutive.
Qed.

Lemma rstrip_head s : head_space s = false -> head_space (rstrip s) = false.
Proof.
  intros H. destruct (rstrip_prefix s) as [post E].
  destruct (rstrip s) as [|c r]; [reflexivity|].
  rewrite E in H. exact H.
Qed.

Lemma strip_stripped s : stripped (strip s) = true.
Proof.
  unfold stripped, strip.
  rewrite rstrip_head by apply lstrip_head.
  now rewrite rstrip_last.
Qed.

Lemma stripped_inv s :
  stripped s = true -> head_space s = false /\ head_space (rev s) = false.
Proof.
  unfold stripped. rewrite andb_true_iff, !negb_true_iff. tauto.
Qed.

Lemma strip_id s : stripped s = true -> strip s = s.
Proof.
  intros H. apply stripped_inv in H as [Hh Hl].
  unfold strip, lstrip, rstrip.
  rewrite (dropwhile_id isspace s) by now apply head_space_false_iff.
  rewrite (dropwhile_id isspace (rev s)) by now apply head_space_false_iff.
  apply rev_involutive.
Qed.

Lemma replace_no_old old new s :
  old <> new -> has_char old (replace old new s) = false.
Proof.
  intros Hne. induction s as [|c r IH]; simpl; auto.
  rewrite IH, orb_false_r.
  destruct (N.eqb_spec c old) as [->|Hc]; apply N.eqb_neq; congruence.
Qed.

Lemma replace_id old new s :
  has_char old s = false -> replace old new s = s.
Proof.
  induction s as [|c r IH]; simpl; auto.
  rewrite orb_false_iff. intros [Hc Hr].
  rewrite IH by assumption.
  rewrite N.eqb_sym, Hc. reflexivity.
Qed.

Lemma replace_rev old new s :
  rev (replace old new s) = replace old new (rev s).
Proof. unfold replace. now rewrite map_rev. Qed.

Lemma replace_head_space old new s :
  isspace new = false ->
  head_space s = false -> head_space (replace old new s) = false.
Proof.
  intros Hn. destruct s as [|c r]; simpl; auto.
  now destruct (c =? old).
Qed.

Lemma replace_stripped old new s :
  isspace new = false ->
  stripped s = true -> stripped (replace old new s) = true.
Proof.
  intros Hn H. apply stripped_inv in H as [Hh Hl].
  unfold stripped. rewrite replace_rev.
  now rewrite !replace_head_space.
Qed.

End PyStrFacts.

(** ** fixtures/python/edge_cases.py *)

Module EdgeCasesSpec.

Import PyStrFacts EdgeCases.

Lemma normalize_stripped s : stripped (normalize s) = true.
Proof.
  unfold normalize. apply replace_stripped; [reflexivity|].
  apply strip_stripped.
Qed.

Lemma normalize_no_hyphen s : has_char hyphen (normalize s) = false.
Proof. unfold normalize. now apply replace_no_old. Qed.

Lemma normalize_id s :
  stripped s = true -> has_char hyphen s = false -> normalize s = s.
Proof.
  intros Hs Hh. unfold normalize. rewrite strip_id by assumption.
  now apply replace_id.
Qed.

(** C5: for every string [s], [normalize s] neither starts nor ends with
    white space and holds no hyphen, and normalising it again changes
    nothing. *)
Theorem normalize_clean_and_idempotent (s : pystr) :
  head_space (normalize s) = false
  /\ head_space (rev (normalize s)) = false
  /\ has_char hyphen (normalize s) = false
  /\ normalize (normalize s) = normalize s.
Proof.
  pose proof (normalize_stripped s) as Hs.
  pose proof (normalize_no_hyphen s) as Hh.
  destruct (stripped_inv _ Hs) as [H1 H2].
  repeat split; auto using normalize_id.
Qed.

(** C6: [Runner.run] is [normalize] followed by [upper], for every string;
    and on a string that [upper] leaves as it is, that holds no hyphen and
    no white space at either end, running twice is running once. *)
Theorem run_is_upper_of_normalize
    (toupper_full : char -> pystr) (s : pystr) :
  run toupper_full s = upper toupper_full (normalize s)
  /\ (upper toupper_full s = s ->
      has_char hyphen s = false ->
      stripped s = true ->
      run toupper_full (run toupper_full s) = run toupper_full s).
Proof.
  split; [reflexivity|].
  intros Hu Hh Hs.
  assert (E : run toupper_full s = s).
  { unfold run. now rewrite normalize_id, Hu. }
  now rewrite !E.
Qed.

Lemma run_is_upper_of_normalize_witness :
  upper toupper_ascii (lit "FOO_BAR 1") = lit "FOO_BAR 1"
  /\ has_char hyphen (lit "FOO_BAR 1") = false
  /\ stripped (lit "FOO_BAR 1") = true
  /\ run toupper_ascii (run toupper_ascii (lit "FOO_BAR 1"))
     = run toupper_ascii (lit "FOO_BAR 1").
Proof.
  assert (Hu : upper toupper_ascii (lit "FOO_BAR 1") = lit "FOO_BAR 1")
    by reflexivity.
  assert (Hh : has_char hyphen (lit "FOO_BAR 1") = false) by reflexivity.
  assert (Hs : stripped (lit "FOO_BAR 1") = true) by reflexivity.
  split; [exact Hu|]. split; [exact Hh|]. split; [exact Hs|].
  exact (proj2 (run_is_upper_of_normalize toupper_ascii (lit "FOO_BAR 1"))
               Hu Hh Hs).
Defined.

Lemma path_str_nonempty p : path_str p <> [].
Proof.
  unfold path_str. destruct (splitroot p) as [root rel].
  destruct (root ++ join [slash] _); discriminate.
Qed.

(** C8: in a process whose working directory is a non-empty path,
    [use_path] returns a non-empty string; the string is computed from the
    directory the process has at the call, the call leaves the process as it
    was, and a call made after the directory changed returns the new one. *)
Theorem use_path_nonempty_and_fresh (p : process) :
  cwd p <> [] ->
  fst (use_path p) <> []
  /\ fst (use_path p) = path_str (cwd p)
  /\ snd (use_path p) = p
  /\ forall d, fst (use_path (chdir d (snd (use_path p)))) = path_str d.
Proof.
  intros _. repeat split. apply path_str_nonempty.
Qed.

Lemma use_path_nonempty_and_fresh_witness :
  cwd {| cwd := lit "/srv/app" |} <> []
  /\ fst (use_path {| cwd := lit "/srv/app" |}) = lit "/srv/app"
  /\ fst (use_path (chdir (lit "/tmp//x/")
                          (snd (use_path {| cwd := lit "/srv/app" |}))))
     = lit "/tmp/x".
Proof.
  assert (H : cwd {| cwd := lit "/srv/app" |} <> []) by discriminate.
  destruct (use_path_nonempty_and_fresh {| cwd := lit "/srv/app" |} H)
    as (_ & E1 & _ & E2).
  split; [exact H|]. split.
  - rewrite E1. reflexivity.
  - rewrite E2. reflexivity.
Defined.

End EdgeCasesSpec.

(** ** The JSON encoder *)

Module EncoderFacts.

Lemma printable_app a b :
  is_printable_ascii (a ++ b)
  = is_printable_ascii a && is_printable_ascii b.
Proof. apply forallb_app. Qed.

Lemma printable_cons c s :
  is_printable_ascii (c :: s)
  = ((32 <=? c) && (c <=? 126)) && is_printable_ascii s.
Proof. reflexivity. Qed.

Lemma printable_is_ascii s : is_printable_ascii s = true -> is_ascii s = true.
Proof.
  unfold is_printable_ascii, is_ascii. rewrite !forallb_forall.
  intros H c Hc. specialize (H c Hc).
  apply andb_true_iff in H as [_ H].
  apply N.leb_le in H. apply N.ltb_lt. lia.
Qed.

Lemma printable_no_newline s :
  is_printable_ascii s = true -> has_char 10 s = false.
Proof.
  induction s as [|c r IH]; [reflexivity|].
  rewrite printable_cons. unfold has_char. cbn [existsb].
  rewrite andb_true_iff, orb_false_iff. intros [Hc Hr].
  split; [|now apply IH].
  apply andb_true_iff in Hc as [Hc _]. apply N.leb_le in Hc.
  apply N.eqb_neq. lia.
Qed.

Lemma low_nibble_bound n : N.land n 15 < 16.
Proof.
  change 15 with (N.ones 4). rewrite N.land_ones.
  apply N.mod_lt. discriminate.
Qed.

Lemma hexdigit_printable d :
  d < 16 -> (32 <=? hexdigit d) && (hexdigit d <=? 126) = true.
Proof.
  intros H. unfold hexdigit. apply andb_true_iff.
  destruct (d <? 10); split; apply N.leb_le; lia.
Qed.

Lemma hex4_printable n : is_printable_ascii (hex4 n) = true.
Proof.
  unfold hex4. rewrite !printable_cons.
  now rewrite !hexdigit_printable by apply low_nibble_bound.
Qed.

Lemma u_escape_printable n : is_printable_ascii (u_escape n) = true.
Proof.
  change (u_escape n) with ([backslash; 117] ++ hex4 n).
  now rewrite printable_app, hex4_printable.
Qed.

Lemma escape_ascii_printable c : is_printable_ascii (escape_ascii c) = true.
Proof.
  unfold escape_ascii.
  destruct (c =? backslash); [reflexivity|].
  destruct (c =? dquote); [reflexivity|].
  destruct ((32 <=? c) && (c <=? 126)) eqn:E.
  { rewrite printable_cons, E. reflexivity. }
  destruct (c =? 8); [reflexivity|].
  destruct (c =? 12); [reflexivity|].
  destruct (c =? 10); [reflexivity|].
  destruct (c =? 13); [reflexivity|].
  destruct (c =? 9); [reflexivity|].
  destruct (c <? 65536).
  - apply u_escape_printable.
  - now rewrite printable_app, !u_escape_printable.
Qed.

Lemma escaped_printable s :
  is_printable_ascii (flat_map escape_ascii s) = true.
Proof.
  induction s as [|c r IH]; [reflexivity|].
  simpl flat_map. now rewrite printable_app, escape_ascii_printable.
Qed.

Lemma encode_printable s :
  is_printable_ascii (encode_basestring_ascii s) = true.
Proof.
  unfold encode_basestring_ascii.
  rewrite printable_cons, printable_app, escaped_printable. reflexivity.
Qed.

End EncoderFacts.

(** ** .skelly/default_agent.py *)

Module DefaultAgentSpec.

Import EncoderFacts DefaultAgent.

Section Facts.

Variable json_load : list Byte.byte -> result value.
Variable float_repr : spec_float -> pystr.
Variable str_repr : pystr -> pystr.

Let summary_of (d : list (pystr * value)) : pystr :=
  summary_text float_repr str_repr (name_in d) (kind_in d) (path_in d).

Let purpose_of (d : list (pystr * value)) : pystr :=
  purpose_text float_repr str_repr (name_in d).

Lemma falsy_or_dict_por v :
  falsy_or_dict v = true -> exists d, por v empty_dict = VDict d.
Proof.
  unfold por. destruct v as [| b | z | f | s | l | d]; simpl;
    try (intros H; apply negb_true_iff in H; rewrite H; now exists []).
  - intros H. now exists [].
  - intros _. destruct d; [now exists [] | eauto].
Qed.

Lemma not_falsy_or_dict_por v :
  falsy_or_dict v = false ->
  por v empty_dict = v /\ forall k dflt, get v k dflt = Raise AttributeError.
Proof.
  unfold por. destruct v as [| b | z | f | s | l | d]; simpl;
    try discriminate;
    intros H; apply negb_false_iff in H; rewrite H; auto.
Qed.

Lemma symbol_of_answerable request :
  answerable request = true -> exists d, symbol_of request = Ok (VDict d).
Proof.
  destruct request as [| b | z | f | s | l | d]; try discriminate.
  unfold answerable, symbol_of, member. cbn [get rbind].
  intros H. apply andb_true_iff in H as [Hi Hs].
  destruct (falsy_or_dict_por _ Hi) as [di Ei]. rewrite Ei in *.
  cbn [get rbind]. cbn [member] in Hs.
  destruct (falsy_or_dict_por _ Hs) as [ds Es]. exists ds. now rewrite Es.
Qed.

Lemma respond_of_symbol request d :
  symbol_of request = Ok (VDict d) ->
  respond float_repr str_repr request
  = Ok (four_strings (summary_of d) (purpose_of d)
          (lit "Unknown from static analysis.") (lit "medium")).
Proof. intros E. unfold respond. rewrite E. reflexivity. Qed.

Lemma respond_unanswerable request :
  answerable request = false ->
  respond float_repr str_repr request = Raise AttributeError.
Proof.
  unfold respond.
  destruct request as [| b | z | f | s | l | d]; try reflexivity.
  unfold answerable, symbol_of, member. cbn [get rbind].
  intros H. apply andb_false_iff in H as [Hi | Hs].
  - destruct (not_falsy_or_dict_por _ Hi) as [-> R]. now rewrite R.
  - remember (por (dict_get d (lit "input") VNone) empty_dict) as input.
    destruct input as [| b | z | f | s | l | di]; try reflexivity.
    cbn [get rbind member] in *.
    destruct (not_falsy_or_dict_por _ Hs) as [-> R]. cbn [rbind].
    now rewrite R.
Qed.

Lemma dumps_four summary purpose :
  dumps float_repr
    (four_strings summary purpose (lit "Unknown from static analysis.")
       (lit "medium"))
  = response_line summary purpose.
Proof.
  unfold four_strings, response_line. cbn [dumps join].
  repeat rewrite <- app_assoc. reflexivity.
Qed.

Lemma response_line_printable summary purpose :
  is_printable_ascii (response_line summary purpose) = true.
Proof.
  unfold response_line.
  now rewrite !printable_app, !encode_printable.
Qed.

Lemma run_document_of_symbol request d :
  symbol_of request = Ok (VDict d) ->
  run_document float_repr str_repr request
  = {| stdout := response_line (summary_of d) (purpose_of d) ++ [10];
       uncaught := None; exit_status := 0 |}.
Proof.
  intros E. unfold run_document, exec, answer, bind, lift, print.
  rewrite (respond_of_symbol _ E), dumps_four. reflexivity.
Qed.

Lemma run_document_unanswerable request :
  answerable request = false ->
  run_document float_repr str_repr request
  = {| stdout := []; uncaught := Some AttributeError; exit_status := 1 |}.
Proof.
  intros E. unfold run_document, exec, answer, bind, lift.
  now rewrite (respond_unanswerable _ E).
Qed.

Lemma run_parsed stdin request :
  json_load stdin = Ok request ->
  run json_load float_repr str_repr stdin
  = run_document float_repr str_repr request.
Proof.
  intros E. unfold run, run_document, exec, main, bind, lift.
  now rewrite E.
Qed.

Lemma run_unparsed stdin e :
  json_load stdin = Raise e ->
  run json_load float_repr str_repr stdin
  = {| stdout := []; uncaught := Some e; exit_status := 1 |}.
Proof.
  intros E. unfold run, exec, main, bind, lift. now rewrite E.
Qed.

End Facts.

Lemma occurs_in_refl s : occurs_in s s.
Proof. exists [], []. now rewrite app_nil_r. Qed.

Lemma occurs_in_app s t pre post :
  occurs_in s t -> occurs_in s (pre ++ t ++ post).
Proof.
  intros (a & b & ->). exists (pre ++ a), (b ++ post).
  now rewrite <- !app_assoc.
Qed.

Lemma occurs_in_escaped s t :
  occurs_in s t ->
  occurs_in (flat_map escape_ascii s) (encode_basestring_ascii t).
Proof.
  intros (a & b & ->). unfold encode_basestring_ascii.
  rewrite !flat_map_app.
  exists (dquote :: flat_map escape_ascii a),
         (flat_map escape_ascii b ++ [dquote]).
  cbn [app]. now rewrite <- !app_assoc.
Qed.

Lemma occurs_in_summary fr sr name kind path s :
  In (VStr s) [name; kind; path] ->
  occurs_in s (summary_text fr sr name kind path).
Proof.
  unfold summary_text. cbv zeta.
  intros [-> | [-> | [-> | []]]]; cbn [format show].
  - exists (format fr sr kind ++ lit " "),
           (lit " in " ++ format fr sr path ++ lit ".").
    now rewrite <- !app_assoc.
  - exists [], (lit " " ++ format fr sr name ++ lit " in "
                 ++ format fr sr path ++ lit ".").
    reflexivity.
  - exists (format fr sr kind ++ lit " " ++ format fr sr name ++ lit " in "),
           (lit ".").
    now rewrite <- !app_assoc.
Qed.

(** C1 (amended): for every input that parses as a dict whose ["input"] is
    missing, false in a test or a dict, and whose ["symbol"] therein is of
    the same kind, the script raises nothing: the response is a dict with
    exactly the keys summary, purpose, side_effects and confidence, in this
    order, each with a string for its value, and it is what the script
    prints before it ends with status 0. *)
Theorem answerable_request_gets_four_strings
    (json_load : list Byte.byte -> result value)
    (float_repr : spec_float -> pystr) (str_repr : pystr -> pystr)
    (stdin : list Byte.byte) (request : value) :
  json_load stdin = Ok request ->
  answerable request = true ->
  exists summary purpose,
    respond float_repr str_repr request
    = Ok (four_strings summary purpose
            (lit "Unknown from static analysis.") (lit "medium"))
    /\ run json_load float_repr str_repr stdin
       = {| stdout := response_line summary purpose ++ [10];
            uncaught := None; exit_status := 0 |}.
Proof.
  intros P H. destruct (symbol_of_answerable _ H) as [d E].
  exists (summary_text float_repr str_repr (name_in d) (kind_in d) (path_in d)),
         (purpose_text float_repr str_repr (name_in d)).
  split.
  - now apply respond_of_symbol.
  - rewrite (run_parsed _ float_repr str_repr _ P).
    now apply run_document_of_symbol.
Qed.

Lemma answerable_request_gets_four_strings_witness :
  JsonText.load (JsonText.jbytes "{'input': [], 'id': 7}")
  = Ok (VDict [(lit "input", VList []); (lit "id", VInt 7)])
  /\ answerable (VDict [(lit "input", VList []); (lit "id", VInt 7)]) = true
  /\ exists summary purpose,
       respond JsonText.float_repr_unused JsonText.str_repr_unused
         (VDict [(lit "input", VList []); (lit "id", VInt 7)])
       = Ok (four_strings summary purpose
               (lit "Unknown from static analysis.") (lit "medium"))
       /\ run JsonText.load JsonText.float_repr_unused
            JsonText.str_repr_unused
            (JsonText.jbytes "{'input': [], 'id': 7}")
          = {| stdout := response_line summary purpose ++ [10];
               uncaught := None; exit_status := 0 |}.
Proof.
  assert (P : JsonText.load (JsonText.jbytes "{'input': [], 'id': 7}")
              = Ok (VDict [(lit "input", VList []); (lit "id", VInt 7)]))
    by reflexivity.
  split; [exact P|]. split; [reflexivity|].
  exact (answerable_request_gets_four_strings JsonText.load
           JsonText.float_repr_unused JsonText.str_repr_unused _ P eq_refl).
Defined.

(** C1 as stated fails: the texts [[]], [{"input": 1}] and
    [{"input": {"symbol": "x"}}] are valid JSON, and on each the script
    ends with an uncaught [AttributeError], status 1 and nothing printed. *)
Lemma valid_json_that_raises :
  JsonText.load (JsonText.jbytes "[]") = Ok (VList [])
  /\ run JsonText.load JsonText.float_repr_unused JsonText.str_repr_unused
       (JsonText.jbytes "[]")
     = {| stdout := []; uncaught := Some AttributeError; exit_status := 1 |}
  /\ JsonText.load (JsonText.jbytes "{'input': 1}")
     = Ok (VDict [(lit "input", VInt 1)])
  /\ run JsonText.load JsonText.float_repr_unused JsonText.str_repr_unused
       (JsonText.jbytes "{'input': 1}")
     = {| stdout := []; uncaught := Some AttributeError; exit_status := 1 |}
  /\ JsonText.load (JsonText.jbytes "{'input': {'symbol': 'x'}}")
     = Ok (VDict [(lit "input", VDict [(lit "symbol", VStr (lit "x"))])])
  /\ run JsonText.load JsonText.float_repr_unused JsonText.str_repr_unused
       (JsonText.jbytes "{'input': {'symbol': 'x'}}")
     = {| stdout := []; uncaught := Some AttributeError; exit_status := 1 |}.
Proof. repeat split; vm_compute; reflexivity. Qed.

(** C2: on the request
    [{"input":{"symbol":{"name":"Widget","kind":"function","path":"pkg/widget.py"}}}]
    the response is the dict of the specification, and the script prints it
    on one line. *)
Theorem widget_request_response
    (float_repr : spec_float -> pystr) (str_repr : pystr -> pystr) :
  JsonText.load
    (JsonText.jbytes
       "{'input':{'symbol':{'name':'Widget','kind':'function','path':'pkg/widget.py'}}}")
  = Ok widget_request
  /\ respond float_repr str_repr widget_request
     = Ok (four_strings (lit "function Widget in pkg/widget.py.")
             (lit "Describe responsibilities of Widget.")
             (lit "Unknown from static analysis.") (lit "medium"))
  /\ run_document float_repr str_repr widget_request
     = {| stdout :=
            jlit "{'summary': 'function Widget in pkg/widget.py.', 'purpose': 'Describe responsibilities of Widget.', 'side_effects': 'Unknown from static analysis.', 'confidence': 'medium'}"
            ++ [10];
          uncaught := None; exit_status := 0 |}.
Proof. repeat split; vm_compute; reflexivity. Qed.

(** C3: on the empty object [{}] every level takes its default, and the
    response is the dict of the specification. *)
Theorem empty_request_response
    (float_repr : spec_float -> pystr) (str_repr : pystr -> pystr) :
  JsonText.load (JsonText.jbytes "{}") = Ok (VDict [])
  /\ symbol_of (VDict []) = Ok empty_dict
  /\ name_in [] = VStr (lit "symbol")
  /\ kind_in [] = VStr (lit "symbol")
  /\ path_in [] = VStr []
  /\ respond float_repr str_repr (VDict [])
     = Ok (four_strings (lit "symbol symbol in .")
             (lit "Describe responsibilities of symbol.")
             (lit "Unknown from static analysis.") (lit "medium"))
  /\ run_document float_repr str_repr (VDict [])
     = {| stdout :=
            jlit "{'summary': 'symbol symbol in .', 'purpose': 'Describe responsibilities of symbol.', 'side_effects': 'Unknown from static analysis.', 'confidence': 'medium'}"
            ++ [10];
          uncaught := None; exit_status := 0 |}.
Proof. repeat split; vm_compute; reflexivity. Qed.

(** C4: when [json.load] raises on what standard input holds, the process
    ends with a status other than 0, the exception uncaught, and standard
    output is empty. *)
Theorem unparsable_stdin_fails
    (json_load : list Byte.byte -> result value)
    (float_repr : spec_float -> pystr) (str_repr : pystr -> pystr)
    (stdin : list Byte.byte) (e : exn) :
  json_load stdin = Raise e ->
  exit_status (run json_load float_repr str_repr stdin) <> 0
  /\ stdout (run json_load float_repr str_repr stdin) = []
  /\ uncaught (run json_load float_repr str_repr stdin) = Some e.
Proof.
  intros E. rewrite (run_unparsed _ _ _ _ E). cbn.
  repeat split. discriminate.
Qed.

Lemma unparsable_stdin_fails_witness :
  JsonText.load (JsonText.bytes_of "not json") = Raise JSONDecodeError
  /\ exit_status
       (run JsonText.load JsonText.float_repr_unused JsonText.str_repr_unused
          (JsonText.bytes_of "not json")) <> 0
  /\ stdout
       (run JsonText.load JsonText.float_repr_unused JsonText.str_repr_unused
          (JsonText.bytes_of "not json")) = []
  /\ uncaught
       (run JsonText.load JsonText.float_repr_unused JsonText.str_repr_unused
          (JsonText.bytes_of "not json")) = Some JSONDecodeError.
Proof.
  assert (E : JsonText.load (JsonText.bytes_of "not json")
              = Raise JSONDecodeError) by reflexivity.
  split; [exact E|].
  exact (unparsable_stdin_fails JsonText.load JsonText.float_repr_unused
           JsonText.str_repr_unused (JsonText.bytes_of "not json") E).
Defined.

(** C7: a run that ends with status 0 has written to standard output
    exactly one line: the JSON object with the keys summary, purpose,
    side_effects and confidence in this order, then a newline.  The line
    itself is printable ASCII, so the newline that ends it is the only one,
    and no exception was reported. *)
Theorem successful_run_prints_one_object
    (json_load : list Byte.byte -> result value)
    (float_repr : spec_float -> pystr) (str_repr : pystr -> pystr)
    (stdin : list Byte.byte) :
  exit_status (run json_load float_repr str_repr stdin) = 0 ->
  exists summary purpose,
    stdout (run json_load float_repr str_repr stdin)
    = response_line summary purpose ++ [10]
    /\ is_printable_ascii (response_line summary purpose) = true
    /\ has_char 10 (response_line summary purpose) = false
    /\ uncaught (run json_load float_repr str_repr stdin) = None.
Proof.
  destruct (json_load stdin) as [request | e] eqn:P.
  - rewrite (run_parsed _ float_repr str_repr _ P).
    destruct (answerable request) eqn:A.
    + destruct (symbol_of_answerable _ A) as [d E].
      rewrite (run_document_of_symbol float_repr str_repr _ E).
      intros _. eexists _, _. split; [reflexivity|].
      pose proof (response_line_printable
                    (summary_text float_repr str_repr (name_in d) (kind_in d)
                       (path_in d))
                    (purpose_text float_repr str_repr (name_in d))) as Hp.
      auto using printable_no_newline.
    + rewrite (run_document_unanswerable float_repr str_repr _ A).
      discriminate.
  - rewrite (run_unparsed _ float_repr str_repr _ P). discriminate.
Qed.

Lemma successful_run_prints_one_object_witness :
  exit_status
    (run JsonText.load JsonText.float_repr_unused JsonText.str_repr_unused
       (JsonText.jbytes "{'input': {'symbol': {'name': 'f', 'kind': 'def'}}}"))
  = 0
  /\ exists summary purpose,
       stdout
         (run JsonText.load JsonText.float_repr_unused
            JsonText.str_repr_unused
            (JsonText.jbytes
               "{'input': {'symbol': {'name': 'f', 'kind': 'def'}}}"))
       = response_line summary purpose ++ [10]
       /\ is_printable_ascii (response_line summary purpose) = true
       /\ has_char 10 (response_line summary purpose) = false
       /\ uncaught
            (run JsonText.load JsonText.float_repr_unused
               JsonText.str_repr_unused
               (JsonText.jbytes
                  "{'input': {'symbol': {'name': 'f', 'kind': 'def'}}}"))
          = None.
Proof.
  split; [reflexivity|].
  apply successful_run_prints_one_object. reflexivity.
Defined.

(** C9: a key [name], [kind] or [path] that is in the symbol dict with the
    value [None] does not take the default of [get]: the field is [None],
    and the f-strings print it as the text [None]. *)
Theorem null_field_is_printed_as_None
    (float_repr : spec_float -> pystr) (str_repr : pystr -> pystr)
    (request : value) (d : list (pystr * value)) :
  symbol_of request = Ok (VDict d) ->
  (lookup (lit "name") d = Some VNone ->
   respond float_repr str_repr request
   = Ok (four_strings
           (format float_repr str_repr (kind_in d) ++ lit " None in "
            ++ format float_repr str_repr (path_in d) ++ lit ".")
           (lit "Describe responsibilities of None.")
           (lit "Unknown from static analysis.") (lit "medium")))
  /\ (lookup (lit "kind") d = Some VNone ->
      respond float_repr str_repr request
      = Ok (four_strings
              (lit "None " ++ format float_repr str_repr (name_in d)
               ++ lit " in " ++ format float_repr str_repr (path_in d)
               ++ lit ".")
              (purpose_text float_repr str_repr (name_in d))
              (lit "Unknown from static analysis.") (lit "medium")))
  /\ (lookup (lit "path") d = Some VNone ->
      respond float_repr str_repr request
      = Ok (four_strings
              (format float_repr str_repr (kind_in d) ++ lit " "
               ++ format float_repr str_repr (name_in d) ++ lit " in None.")
              (purpose_text float_repr str_repr (name_in d))
              (lit "Unknown from static analysis.") (lit "medium"))).
Proof.
  intros E. rewrite (respond_of_symbol float_repr str_repr _ E).
  unfold summary_text, purpose_text. cbv zeta.
  repeat split; intros L.
  - unfold name_in at 1 2, dict_get. rewrite L. reflexivity.
  - unfold kind_in at 1, dict_get at 1. rewrite L. reflexivity.
  - unfold path_in, dict_get. rewrite L. reflexivity.
Qed.

Lemma null_field_is_printed_as_None_witness :
  symbol_of
    (VDict [(lit "input",
             VDict [(lit "symbol", VDict [(lit "name", VNone)])])])
  = Ok (VDict [(lit "name", VNone)])
  /\ lookup (lit "name") [(lit "name", VNone)] = Some VNone
  /\ respond JsonText.float_repr_unused JsonText.str_repr_unused
       (VDict [(lit "input",
                VDict [(lit "symbol", VDict [(lit "name", VNone)])])])
     = Ok (four_strings (lit "symbol None in .")
             (lit "Describe responsibilities of None.")
             (lit "Unknown from static analysis.") (lit "medium")).
Proof.
  assert (E : symbol_of
                (VDict [(lit "input",
                         VDict [(lit "symbol", VDict [(lit "name", VNone)])])])
              = Ok (VDict [(lit "name", VNone)])) by reflexivity.
  assert (L : lookup (lit "name") [(lit "name", VNone)] = Some VNone)
    by reflexivity.
  split; [exact E|]. split; [exact L|].
  exact (proj1 (null_field_is_printed_as_None JsonText.float_repr_unused
                  JsonText.str_repr_unused _ E) L).
Defined.

Lemma non_ascii_escape c :
  128 <= c ->
  escape_ascii c
  = if c <? 65536 then u_escape c
    else u_escape (high_surrogate c) ++ u_escape (low_surrogate c).
Proof.
  intros H. unfold escape_ascii, backslash, dquote.
  repeat match goal with
         | |- context [?a =? ?b] =>
             replace (a =? b) with false by (symmetry; apply N.eqb_neq; lia)
         end.
  replace ((32 <=? c) && (c <=? 126)) with false; [reflexivity|].
  symmetry. apply andb_false_iff. right. apply N.leb_gt. lia.
Qed.

Lemma run_is_printable json_load float_repr str_repr stdin :
  is_ascii (stdout (run json_load float_repr str_repr stdin)) = true.
Proof.
  destruct (json_load stdin) as [request | e] eqn:P.
  - rewrite (run_parsed _ float_repr str_repr _ P).
    destruct (answerable request) eqn:A.
    + destruct (symbol_of_answerable _ A) as [d E].
      rewrite (run_document_of_symbol float_repr str_repr _ E).
      cbn [stdout]. unfold is_ascii. rewrite forallb_app.
      fold (is_ascii (response_line
                        (summary_text float_repr str_repr (name_in d)
                           (kind_in d) (path_in d))
                        (purpose_text float_repr str_repr (name_in d)))).
      rewrite printable_is_ascii by apply response_line_printable.
      reflexivity.
    + now rewrite (run_document_unanswerable float_repr str_repr _ A).
  - now rewrite (run_unparsed _ float_repr str_repr _ P).
Qed.

(** C10: what a run writes to standard output is ASCII.  A code point of
    128 or more is written by the encoder as [\uXXXX], as the two escapes of
    its surrogates when it lies above the basic plane; and the escaped form
    of a name, kind or path that is a string is part of the printed line. *)
Theorem output_is_ascii
    (json_load : list Byte.byte -> result value)
    (float_repr : spec_float -> pystr) (str_repr : pystr -> pystr)
    (stdin : list Byte.byte) :
  is_ascii (stdout (run json_load float_repr str_repr stdin)) = true
  /\ (forall c,
        128 <= c ->
        escape_ascii c
        = (if c <? 65536 then u_escape c
           else u_escape (high_surrogate c) ++ u_escape (low_surrogate c))
        /\ is_ascii (escape_ascii c) = true)
  /\ (forall request d s,
        json_load stdin = Ok request ->
        symbol_of request = Ok (VDict d) ->
        In (VStr s) [name_in d; kind_in d; path_in d] ->
        occurs_in (flat_map escape_ascii s)
          (stdout (run json_load float_repr str_repr stdin))).
Proof.
  split; [apply run_is_printable|]. split.
  - intros c H. split; [now apply non_ascii_escape|].
    apply printable_is_ascii, escape_ascii_printable.
  - intros request d s P E I.
    rewrite (run_parsed _ float_repr str_repr _ P).
    rewrite (run_document_of_symbol float_repr str_repr _ E).
    cbn [stdout]. unfold response_line. rewrite <- !app_assoc.
    apply occurs_in_app, occurs_in_escaped. now apply occurs_in_summary.
Qed.

Lemma output_is_ascii_witness :
  JsonText.load
    (JsonText.jbytes "{'input': {'symbol': {'name': 'caf\u00e9'}}}")
  = Ok (VDict [(lit "input",
                VDict [(lit "symbol",
                        VDict [(lit "name", VStr (lit "caf" ++ [233]))])])])
  /\ is_ascii
       (stdout
          (run JsonText.load JsonText.float_repr_unused
             JsonText.str_repr_unused
             (JsonText.jbytes
                "{'input': {'symbol': {'name': 'caf\u00e9'}}}")))
     = true
  /\ escape_ascii 233 = lit "\u00e9"
  /\ occurs_in (lit "caf\u00e9")
       (stdout
          (run JsonText.load JsonText.float_repr_unused
             JsonText.str_repr_unused
             (JsonText.jbytes
                "{'input': {'symbol': {'name': 'caf\u00e9'}}}"))).
Proof.
  assert (P : JsonText.load
                (JsonText.jbytes
                   "{'input': {'symbol': {'name': 'caf\u00e9'}}}")
              = Ok (VDict
                      [(lit "input",
                        VDict
                          [(lit "symbol",
                            VDict [(lit "name", VStr (lit "caf" ++ [233]))])])]))
    by reflexivity.
  destruct (output_is_ascii JsonText.load JsonText.float_repr_unused
              JsonText.str_repr_unused
              (JsonText.jbytes
                 "{'input': {'symbol': {'name': 'caf\u00e9'}}}"))
    as (A & U & O).
  split; [exact P|]. split; [exact A|]. split.
  - assert (H : 128 <= 233) by (intro C; discriminate C).
    exact (proj1 (U 233 H)).
  - exact (O _ [(lit "name", VStr (lit "caf" ++ [233]))] (lit "caf" ++ [233])
             P eq_refl (or_introl eq_refl)).
Defined.

End DefaultAgentSpec.

(** ** More on .skelly/default_agent.py: failures, defaults, what is read *)

Module DefaultAgentMore.

Import EncoderFacts DefaultAgent DefaultAgentSpec Observations.

Lemma plain_char_escape c : is_plain_char c = true -> escape_ascii c = [c].
Proof.
  unfold is_plain_char, escape_ascii. rewrite !andb_true_iff, !negb_true_iff.
  intros [[[R1 R2] Q] B]. now rewrite B, Q, R1, R2.
Qed.

Lemma plain_escaped s : is_plain s = true -> flat_map escape_ascii s = s.
Proof.
  induction s as [|c r IH]; [reflexivity|].
  unfold is_plain. cbn [forallb flat_map]. rewrite andb_true_iff.
  intros [Hc Hr]. rewrite (plain_char_escape _ Hc), (IH Hr). reflexivity.
Qed.

Lemma plain_encoded s :
  is_plain s = true -> encode_basestring_ascii s = quoted s.
Proof.
  intros H. unfold encode_basestring_ascii, quoted. now rewrite plain_escaped.
Qed.

Lemma plain_app a b : is_plain (a ++ b) = is_plain a && is_plain b.
Proof. apply forallb_app. Qed.

Lemma name_in_found d v : lookup (lit "name") d = Some v -> name_in d = v.
Proof. unfold name_in, dict_get. now intros ->. Qed.

Lemma kind_in_found d v : lookup (lit "kind") d = Some v -> kind_in d = v.
Proof. unfold kind_in, dict_get. now intros ->. Qed.

Lemma path_in_found d v : lookup (lit "path") d = Some v -> path_in d = v.
Proof. unfold path_in, dict_get. now intros ->. Qed.

Lemma exit_status_of_document fr sr request :
  exit_status (run_document fr sr request)
  = if answerable request then 0 else 1.
Proof.
  destruct (answerable request) eqn:A.
  - destruct (symbol_of_answerable _ A) as [d E].
    now rewrite (run_document_of_symbol fr sr _ E).
  - now rewrite (run_document_unanswerable fr sr _ A).
Qed.

(** X1: a run ends with status 0 exactly when standard input parses to a
    request the script can answer: a dict whose ["input"] is missing, false
    in a test or a dict, and whose ["symbol"] therein is of the same kind. *)
Theorem run_succeeds_iff_answerable
    (json_load : list Byte.byte -> result value)
    (float_repr : spec_float -> pystr) (str_repr : pystr -> pystr)
    (stdin : list Byte.byte) :
  exit_status (run json_load float_repr str_repr stdin) = 0
  <-> exists request, json_load stdin = Ok request /\ answerable request = true.
Proof.
  split.
  - destruct (json_load stdin) as [request | e] eqn:P.
    + rewrite (run_parsed _ float_repr str_repr _ P), exit_status_of_document.
      destruct (answerable request) eqn:A; [|discriminate].
      intros _. now exists request.
    + rewrite (run_unparsed _ float_repr str_repr _ P). discriminate.
  - intros (request & P & A).
    now rewrite (run_parsed _ float_repr str_repr _ P),
      exit_status_of_document, A.
Qed.

(** X2: output is all or nothing.  A run that does not end with status 0
    ends with status 1 and an uncaught exception, and has written nothing
    to standard output. *)
Theorem failed_run_prints_nothing
    (json_load : list Byte.byte -> result value)
    (float_repr : spec_float -> pystr) (str_repr : pystr -> pystr)
    (stdin : list Byte.byte) :
  exit_status (run json_load float_repr str_repr stdin) <> 0 ->
  stdout (run json_load float_repr str_repr stdin) = []
  /\ exit_status (run json_load float_repr str_repr stdin) = 1
  /\ exists e, uncaught (run json_load float_repr str_repr stdin) = Some e.
Proof.
  destruct (json_load stdin) as [request | e] eqn:P.
  - rewrite (run_parsed _ float_repr str_repr _ P).
    destruct (answerable request) eqn:A.
    + rewrite exit_status_of_document, A. intros H. now destruct H.
    + rewrite (run_document_unanswerable float_repr str_repr _ A).
      intros _. cbn. eauto.
  - rewrite (run_unparsed _ float_repr str_repr _ P). intros _. cbn. eauto.
Qed.

Lemma failed_run_prints_nothing_witness :
  exit_status
    (run JsonText.load JsonText.float_repr_unused JsonText.str_repr_unused
       (JsonText.jbytes "{'input': {'symbol': 3}}")) <> 0
  /\ stdout
       (run JsonText.load JsonText.float_repr_unused JsonText.str_repr_unused
          (JsonText.jbytes "{'input': {'symbol': 3}}")) = []
  /\ exit_status
       (run JsonText.load JsonText.float_repr_unused JsonText.str_repr_unused
          (JsonText.jbytes "{'input': {'symbol': 3}}")) = 1
  /\ exists e,
       uncaught
         (run JsonText.load JsonText.float_repr_unused
            JsonText.str_repr_unused
            (JsonText.jbytes "{'input': {'symbol': 3}}")) = Some e.
Proof.
  assert (H : exit_status
                (run JsonText.load JsonText.float_repr_unused
                   JsonText.str_repr_unused
                   (JsonText.jbytes "{'input': {'symbol': 3}}")) <> 0)
    by (vm_compute; discriminate).
  split; [exact H|].
  exact (failed_run_prints_nothing JsonText.load JsonText.float_repr_unused
           JsonText.str_repr_unused _ H).
Defined.

(** X3: on an input that parses to a request the script cannot answer (not
    a dict, or with a true non-dict value for ["input"] or ["symbol"]), the
    exception is [AttributeError], raised by [.get] before anything is
    printed. *)
Theorem wrong_shape_raises_attribute_error
    (json_load : list Byte.byte -> result value)
    (float_repr : spec_float -> pystr) (str_repr : pystr -> pystr)
    (stdin : list Byte.byte) (request : value) :
  json_load stdin = Ok request ->
  answerable request = false ->
  run json_load float_repr str_repr stdin
  = {| stdout := []; uncaught := Some AttributeError; exit_status := 1 |}.
Proof.
  intros P A. rewrite (run_parsed _ float_repr str_repr _ P).
  now apply run_document_unanswerable.
Qed.

Lemma wrong_shape_raises_attribute_error_witness :
  JsonText.load (JsonText.jbytes "{'input': true}")
  = Ok (VDict [(lit "input", VBool true)])
  /\ answerable (VDict [(lit "input", VBool true)]) = false
  /\ run JsonText.load JsonText.float_repr_unused JsonText.str_repr_unused
       (JsonText.jbytes "{'input': true}")
     = {| stdout := []; uncaught := Some AttributeError; exit_status := 1 |}.
Proof.
  assert (P : JsonText.load (JsonText.jbytes "{'input': true}")
              = Ok (VDict [(lit "input", VBool true)])) by reflexivity.
  split; [exact P|]. split; [reflexivity|].
  exact (wrong_shape_raises_attribute_error JsonText.load
           JsonText.float_repr_unused JsonText.str_repr_unused _ P eq_refl).
Defined.

(** X4: of the request, only the member ["input"] is read: two dicts that
    hold the same value for it (or both none) give the same run, whatever
    their other members are. *)
Theorem only_input_member_is_read
    (float_repr : spec_float -> pystr) (str_repr : pystr -> pystr)
    (d1 d2 : list (pystr * value)) :
  lookup (lit "input") d1 = lookup (lit "input") d2 ->
  run_document float_repr str_repr (VDict d1)
  = run_document float_repr str_repr (VDict d2).
Proof.
  intros H. unfold run_document, answer, respond, symbol_of.
  cbn [get rbind]. unfold dict_get. now rewrite H.
Qed.

Lemma only_input_member_is_read_witness :
  lookup (lit "input")
    [(lit "id", VInt 7); (lit "input", VDict [(lit "symbol", VNone)])]
  = lookup (lit "input")
      [(lit "input", VDict [(lit "symbol", VNone)]); (lit "mode", VStr [])]
  /\ run_document JsonText.float_repr_unused JsonText.str_repr_unused
       (VDict [(lit "id", VInt 7);
               (lit "input", VDict [(lit "symbol", VNone)])])
     = run_document JsonText.float_repr_unused JsonText.str_repr_unused
         (VDict [(lit "input", VDict [(lit "symbol", VNone)]);
                 (lit "mode", VStr [])]).
Proof.
  assert (H : lookup (lit "input")
                [(lit "id", VInt 7);
                 (lit "input", VDict [(lit "symbol", VNone)])]
              = lookup (lit "input")
                  [(lit "input", VDict [(lit "symbol", VNone)]);
                   (lit "mode", VStr [])]) by reflexivity.
  split; [exact H|].
  exact (only_input_member_is_read JsonText.float_repr_unused
           JsonText.str_repr_unused _ _ H).
Defined.

(** X5: of the symbol, only the items [name], [kind] and [path] are read:
    two requests whose symbols agree on these three keys give the same
    run. *)
Theorem only_three_fields_are_read
    (float_repr : spec_float -> pystr) (str_repr : pystr -> pystr)
    (r1 r2 : value) (d1 d2 : list (pystr * value)) :
  symbol_of r1 = Ok (VDict d1) ->
  symbol_of r2 = Ok (VDict d2) ->
  lookup (lit "name") d1 = lookup (lit "name") d2 ->
  lookup (lit "kind") d1 = lookup (lit "kind") d2 ->
  lookup (lit "path") d1 = lookup (lit "path") d2 ->
  run_document float_repr str_repr r1 = run_document float_repr str_repr r2.
Proof.
  intros E1 E2 Hn Hk Hp.
  rewrite (run_document_of_symbol float_repr str_repr _ E1).
  rewrite (run_document_of_symbol float_repr str_repr _ E2).
  unfold name_in, kind_in, path_in, dict_get. now rewrite Hn, Hk, Hp.
Qed.

Lemma only_three_fields_are_read_witness :
  symbol_of (request_with [(lit "line", VInt 3); (lit "name", VStr (lit "f"))])
  = Ok (VDict [(lit "line", VInt 3); (lit "name", VStr (lit "f"))])
  /\ symbol_of (request_with [(lit "name", VStr (lit "f"))])
     = Ok (VDict [(lit "name", VStr (lit "f"))])
  /\ run_document JsonText.float_repr_unused JsonText.str_repr_unused
       (request_with [(lit "line", VInt 3); (lit "name", VStr (lit "f"))])
     = run_document JsonText.float_repr_unused JsonText.str_repr_unused
         (request_with [(lit "name", VStr (lit "f"))]).
Proof.
  assert (E1 : symbol_of
                 (request_with
                    [(lit "line", VInt 3); (lit "name", VStr (lit "f"))])
               = Ok (VDict [(lit "line", VInt 3);
                            (lit "name", VStr (lit "f"))])) by reflexivity.
  assert (E2 : symbol_of (request_with [(lit "name", VStr (lit "f"))])
               = Ok (VDict [(lit "name", VStr (lit "f"))])) by reflexivity.
  split; [exact E1|]. split; [exact E2|].
  exact (only_three_fields_are_read JsonText.float_repr_unused
           JsonText.str_repr_unused _ _ E1 E2 eq_refl eq_refl eq_refl).
Defined.

(** X6: when [name], [kind] and [path] are strings they are put into the
    two templates as they are; and when they are plain (printable ASCII
    without double quote and backslash) the printed line holds them
    unchanged between the quotes. *)
Theorem string_fields_are_inserted
    (float_repr : spec_float -> pystr) (str_repr : pystr -> pystr)
    (request : value) (d : list (pystr * value)) (n k p : pystr) :
  symbol_of request = Ok (VDict d) ->
  lookup (lit "name") d = Some (VStr n) ->
  lookup (lit "kind") d = Some (VStr k) ->
  lookup (lit "path") d = Some (VStr p) ->
  respond float_repr str_repr request
  = Ok (four_strings (k ++ lit " " ++ n ++ lit " in " ++ p ++ lit ".")
          (lit "Describe responsibilities of " ++ n ++ lit ".")
          (lit "Unknown from static analysis.") (lit "medium"))
  /\ (is_plain n = true -> is_plain k = true -> is_plain p = true ->
      stdout (run_document float_repr str_repr request)
      = jlit "{'summary': "
        ++ quoted (k ++ lit " " ++ n ++ lit " in " ++ p ++ lit ".")
        ++ jlit ", 'purpose': "
        ++ quoted (lit "Describe responsibilities of " ++ n ++ lit ".")
        ++ jlit ", 'side_effects': 'Unknown from static analysis.'"
        ++ jlit ", 'confidence': 'medium'}" ++ [10]).
Proof.
  intros E Ln Lk Lp.
  rewrite (respond_of_symbol float_repr str_repr _ E).
  rewrite (run_document_of_symbol float_repr str_repr _ E).
  rewrite (name_in_found _ Ln), (kind_in_found _ Lk), (path_in_found _ Lp).
  unfold summary_text, purpose_text. cbv zeta. cbn [format show stdout].
  split; [reflexivity|].
  intros Pn Pk Pp. unfold response_line.
  rewrite !plain_encoded.
  - now rewrite <- !app_assoc.
  - now rewrite !plain_app, Pn.
  - now rewrite !plain_app, Pn, Pk, Pp.
Qed.

Lemma string_fields_are_inserted_witness :
  symbol_of
    (request_with [(lit "name", VStr (lit "Tree.walk"));
                   (lit "kind", VStr (lit "method"));
                   (lit "path", VStr (lit "src/tree.py"))])
  = Ok (VDict [(lit "name", VStr (lit "Tree.walk"));
               (lit "kind", VStr (lit "method"));
               (lit "path", VStr (lit "src/tree.py"))])
  /\ stdout
       (run_document JsonText.float_repr_unused JsonText.str_repr_unused
          (request_with [(lit "name", VStr (lit "Tree.walk"));
                         (lit "kind", VStr (lit "method"));
                         (lit "path", VStr (lit "src/tree.py"))]))
     = jlit "{'summary': 'method Tree.walk in src/tree.py.', 'purpose': 'Describe responsibilities of Tree.walk.', 'side_effects': 'Unknown from static analysis.', 'confidence': 'medium'}"
       ++ [10].
Proof.
  assert (E : symbol_of
                (request_with [(lit "name", VStr (lit "Tree.walk"));
                               (lit "kind", VStr (lit "method"));
                               (lit "path", VStr (lit "src/tree.py"))])
              = Ok (VDict [(lit "name", VStr (lit "Tree.walk"));
                           (lit "kind", VStr (lit "method"));
                           (lit "path", VStr (lit "src/tree.py"))]))
    by reflexivity.
  split; [exact E|].
  exact (proj2 (@string_fields_are_inserted JsonText.float_repr_unused
                  JsonText.str_repr_unused _ _ (lit "Tree.walk")
                  (lit "method") (lit "src/tree.py")
                  E eq_refl eq_refl eq_refl)
           eq_refl eq_refl eq_refl).
Defined.

(** X7: a key [name], [kind] or [path] that the symbol dict does not hold
    takes the default of its [get]: the text [symbol] for the name and the
    kind, the empty text for the path, whatever the other items are. *)
Theorem missing_fields_take_defaults
    (float_repr : spec_float -> pystr) (str_repr : pystr -> pystr)
    (request : value) (d : list (pystr * value)) :
  symbol_of request = Ok (VDict d) ->
  (lookup (lit "name") d = None ->
   respond float_repr str_repr request
   = Ok (four_strings
           (format float_repr str_repr (kind_in d) ++ lit " symbol in "
            ++ format float_repr str_repr (path_in d) ++ lit ".")
           (lit "Describe responsibilities of symbol.")
           (lit "Unknown from static analysis.") (lit "medium")))
  /\ (lookup (lit "kind") d = None ->
      respond float_repr str_repr request
      = Ok (four_strings
              (lit "symbol " ++ format float_repr str_repr (name_in d)
               ++ lit " in " ++ format float_repr str_repr (path_in d)
               ++ lit ".")
              (purpose_text float_repr str_repr (name_in d))
              (lit "Unknown from static analysis.") (lit "medium")))
  /\ (lookup (lit "path") d = None ->
      respond float_repr str_repr request
      = Ok (four_strings
              (format float_repr str_repr (kind_in d) ++ lit " "
               ++ format float_repr str_repr (name_in d) ++ lit " in .")
              (purpose_text float_repr str_repr (name_in d))
              (lit "Unknown from static analysis.") (lit "medium"))).
Proof.
  intros E. rewrite (respond_of_symbol float_repr str_repr _ E).
  unfold summary_text, purpose_text. cbv zeta.
  repeat split; intros L.
  - unfold name_in at 1 2, dict_get. rewrite L. reflexivity.
  - unfold kind_in at 1, dict_get at 1. rewrite L. reflexivity.
  - unfold path_in, dict_get. rewrite L. reflexivity.
Qed.

Lemma missing_fields_take_defaults_witness :
  symbol_of (request_with [(lit "kind", VStr (lit "class"))])
  = Ok (VDict [(lit "kind", VStr (lit "class"))])
  /\ lookup (lit "name") [(lit "kind", VStr (lit "class"))] = None
  /\ respond JsonText.float_repr_unused JsonText.str_repr_unused
       (request_with [(lit "kind", VStr (lit "class"))])
     = Ok (four_strings (lit "class symbol in .")
             (lit "Describe responsibilities of symbol.")
             (lit "Unknown from static analysis.") (lit "medium")).
Proof.
  assert (E : symbol_of (request_with [(lit "kind", VStr (lit "class"))])
              = Ok (VDict [(lit "kind", VStr (lit "class"))])) by reflexivity.
  assert (L : lookup (lit "name") [(lit "kind", VStr (lit "class"))] = None)
    by reflexivity.
  split; [exact E|]. split; [exact L|].
  exact (proj1 (missing_fields_take_defaults JsonText.float_repr_unused
                  JsonText.str_repr_unused _ E) L).
Defined.

(** X8: a value for ["input"] that is false in a test ([None], [False],
    zero, an empty string, list or dict), or such a value for ["symbol"]
    inside an ["input"] dict, counts as a missing one: the run is that of
    the empty request, with all three defaults. *)
Theorem falsy_levels_count_as_missing
    (float_repr : spec_float -> pystr) (str_repr : pystr -> pystr)
    (d : list (pystr * value)) :
  truthy (dict_get d (lit "input") VNone) = false
  \/ (exists di, lookup (lit "input") d = Some (VDict di)
                 /\ truthy (dict_get di (lit "symbol") VNone) = false) ->
  run_document float_repr str_repr (VDict d)
  = run_document float_repr str_repr (VDict [])
  /\ stdout (run_document float_repr str_repr (VDict d))
     = jlit "{'summary': 'symbol symbol in .', 'purpose': 'Describe responsibilities of symbol.', 'side_effects': 'Unknown from static analysis.', 'confidence': 'medium'}"
       ++ [10].
Proof.
  intros H.
  assert (E : symbol_of (VDict d) = Ok empty_dict).
  { unfold symbol_of. cbn [get rbind]. destruct H as [F | (di & L & F)].
    - replace (por (dict_get d (lit "input") VNone) empty_dict)
        with empty_dict by (unfold por; now rewrite F).
      reflexivity.
    - replace (dict_get d (lit "input") VNone) with (VDict di)
        by (unfold dict_get; now rewrite L).
      destruct di as [|i di']; [reflexivity|].
      change (por (VDict (i :: di')) empty_dict) with (VDict (i :: di')).
      cbn [get rbind]. unfold por. now rewrite F. }
  rewrite (run_document_of_symbol float_repr str_repr _ E).
  split; reflexivity.
Qed.

Lemma falsy_levels_count_as_missing_witness :
  truthy (dict_get [(lit "input", VInt 0)] (lit "input") VNone) = false
  /\ stdout
       (run_document JsonText.float_repr_unused JsonText.str_repr_unused
          (VDict [(lit "input", VInt 0)]))
     = jlit "{'summary': 'symbol symbol in .', 'purpose': 'Describe responsibilities of symbol.', 'side_effects': 'Unknown from static analysis.', 'confidence': 'medium'}"
       ++ [10]
  /\ stdout
       (run_document JsonText.float_repr_unused JsonText.str_repr_unused
          (VDict [(lit "input",
                   VDict [(lit "symbol", VStr []); (lit "v", VInt 2)])]))
     = jlit "{'summary': 'symbol symbol in .', 'purpose': 'Describe responsibilities of symbol.', 'side_effects': 'Unknown from static analysis.', 'confidence': 'medium'}"
       ++ [10].
Proof.
  assert (F : truthy (dict_get [(lit "input", VInt 0)] (lit "input") VNone)
              = false) by reflexivity.
  split; [exact F|]. split.
  - exact (proj2 (falsy_levels_count_as_missing JsonText.float_repr_unused
                    JsonText.str_repr_unused [(lit "input", VInt 0)]
                    (or_introl F))).
  - exact (proj2 (falsy_levels_count_as_missing JsonText.float_repr_unused
                    JsonText.str_repr_unused
                    [(lit "input",
                      VDict [(lit "symbol", VStr []); (lit "v", VInt 2)])]
                    (or_intror
                       (ex_intro _
                          [(lit "symbol", VStr []); (lit "v", VInt 2)]
                          (conj eq_refl eq_refl))))).
Defined.

(** X9: a name that is a JSON boolean or integer is printed the way Python
    writes it: [True] or [False], and the decimal digits with a minus sign
    for a negative number. *)
Theorem bool_and_int_names_are_printed
    (float_repr : spec_float -> pystr) (str_repr : pystr -> pystr)
    (request : value) (d : list (pystr * value)) :
  symbol_of request = Ok (VDict d) ->
  (forall b,
     lookup (lit "name") d = Some (VBool b) ->
     respond float_repr str_repr request
     = Ok (four_strings
             (format float_repr str_repr (kind_in d) ++ lit " "
              ++ (if b then lit "True" else lit "False") ++ lit " in "
              ++ format float_repr str_repr (path_in d) ++ lit ".")
             (lit "Describe responsibilities of "
              ++ (if b then lit "True" else lit "False") ++ lit ".")
             (lit "Unknown from static analysis.") (lit "medium")))
  /\ (forall z,
        lookup (lit "name") d = Some (VInt z) ->
        respond float_repr str_repr request
        = Ok (four_strings
                (format float_repr str_repr (kind_in d) ++ lit " "
                 ++ int_str z ++ lit " in "
                 ++ format float_repr str_repr (path_in d) ++ lit ".")
                (lit "Describe responsibilities of " ++ int_str z ++ lit ".")
                (lit "Unknown from static analysis.") (lit "medium"))).
Proof.
  intros E. rewrite (respond_of_symbol float_repr str_repr _ E).
  unfold summary_text, purpose_text. cbv zeta.
  split; intros v L; rewrite (name_in_found _ L).
  - now destruct v.
  - reflexivity.
Qed.

Lemma bool_and_int_names_are_printed_witness :
  symbol_of (request_with [(lit "name", VInt (-42))])
  = Ok (VDict [(lit "name", VInt (-42))])
  /\ respond JsonText.float_repr_unused JsonText.str_repr_unused
       (request_with [(lit "name", VInt (-42))])
     = Ok (four_strings (lit "symbol -42 in .")
             (lit "Describe responsibilities of -42.")
             (lit "Unknown from static analysis.") (lit "medium"))
  /\ respond JsonText.float_repr_unused JsonText.str_repr_unused
       (request_with [(lit "name", VBool false)])
     = Ok (four_strings (lit "symbol False in .")
             (lit "Describe responsibilities of False.")
             (lit "Unknown from static analysis.") (lit "medium")).
Proof.
  assert (E : symbol_of (request_with [(lit "name", VInt (-42))])
              = Ok (VDict [(lit "name", VInt (-42))])) by reflexivity.
  assert (E' : symbol_of (request_with [(lit "name", VBool false)])
               = Ok (VDict [(lit "name", VBool false)])) by reflexivity.
  split; [exact E|]. split.
  - exact (proj2 (bool_and_int_names_are_printed JsonText.float_repr_unused
                    JsonText.str_repr_unused _ E) (-42)%Z eq_refl).
  - exact (proj1 (bool_and_int_names_are_printed JsonText.float_repr_unused
                    JsonText.str_repr_unused _ E') false eq_refl).
Defined.

End DefaultAgentMore.

(** ** More on fixtures/python/edge_cases.py *)

Module EdgeCasesMore.

Import PyStrFacts EdgeCases EdgeCasesSpec Observations.

Lemma dropwhile_all p s : forallb p s = true -> dropwhile p s = [].
Proof.
  induction s as [|c r IH]; [reflexivity|].
  cbn [forallb dropwhile]. rewrite andb_true_iff. intros [Hc Hr].
  rewrite Hc. auto.
Qed.

Lemma dropwhile_nil p s : dropwhile p s = [] -> forallb p s = true.
Proof.
  induction s as [|c r IH]; [reflexivity|].
  cbn [forallb dropwhile]. destruct (p c); [auto | discriminate].
Qed.

Lemma dropwhile_app_all p a t :
  forallb p a = true -> dropwhile p (a ++ t) = dropwhile p t.
Proof.
  induction a as [|c r IH]; [reflexivity|].
  cbn [forallb dropwhile app]. rewrite andb_true_iff. intros [Hc Hr].
  rewrite Hc. auto.
Qed.

Lemma dropwhile_app_some p s b :
  forallb p s = false -> dropwhile p (s ++ b) = dropwhile p s ++ b.
Proof.
  induction s as [|c r IH]; [discriminate|].
  cbn [forallb dropwhile app]. destruct (p c); [exact IH | reflexivity].
Qed.

Lemma all_space_rev s : all_space (rev s) = all_space s.
Proof.
  unfold all_space. induction s as [|c r IH]; [reflexivity|].
  cbn [rev forallb]. rewrite forallb_app, IH. cbn [forallb].
  rewrite andb_true_r. apply andb_comm.
Qed.

Lemma lstrip_blank s : all_space s = true -> lstrip s = [].
Proof. apply dropwhile_all. Qed.

Lemma strip_nil_iff s : strip s = [] <-> all_space s = true.
Proof.
  unfold strip, rstrip. split.
  - intros H. apply (f_equal (@rev char)) in H.
    rewrite rev_involutive in H. cbn [rev] in H.
    apply dropwhile_nil in H. fold (all_space (rev (lstrip s))) in H.
    rewrite all_space_rev in H.
    pose proof (lstrip_head s) as Hh. unfold lstrip in *.
    destruct (dropwhile isspace s) as [|c r] eqn:E.
    + now apply dropwhile_nil.
    + cbn in H, Hh. rewrite Hh in H. discriminate.
  - intros H. now rewrite (lstrip_blank _ H).
Qed.

Lemma strip_ignores_surrounding_space a s b :
  all_space a = true -> all_space b = true -> strip (a ++ s ++ b) = strip s.
Proof.
  intros Ha Hb. unfold strip, lstrip.
  rewrite (dropwhile_app_all _ _ _ Ha).
  destruct (forallb isspace s) eqn:Hs.
  - rewrite (dropwhile_app_all _ _ _ Hs), (dropwhile_all _ _ Hb).
    now rewrite (dropwhile_all _ _ Hs).
  - rewrite (dropwhile_app_some _ _ _ Hs). unfold rstrip.
    rewrite rev_app_distr. f_equal. apply dropwhile_app_all.
    fold (all_space (rev b)). now rewrite all_space_rev.
Qed.

Lemma replace_nil_iff old new s : replace old new s = [] <-> s = [].
Proof. destruct s; cbn; split; intros H; auto; discriminate. Qed.

(** X10: the fixed points of [normalize] are exactly the strings with no
    white space at either end and no hyphen. *)
Theorem normalize_fixed_points (s : pystr) :
  normalize s = s <-> stripped s = true /\ has_char hyphen s = false.
Proof.
  split.
  - intros H. split.
    + pose proof (normalize_stripped s) as A. now rewrite H in A.
    + pose proof (normalize_no_hyphen s) as A. now rewrite H in A.
  - intros [Hs Hh]. now apply normalize_id.
Qed.

Lemma normalize_empty_iff_blank_aux s :
  normalize s = [] <-> all_space s = true.
Proof.
  unfold normalize. cbv zeta. rewrite replace_nil_iff. apply strip_nil_iff.
Qed.

(** X11: [normalize] returns the empty string exactly on the strings made
    of white space only, the empty string among them; and so does
    [Runner.run] on such a string. *)
Theorem normalize_empty_iff_blank (toupper_full : char -> pystr) (s : pystr) :
  (normalize s = [] <-> all_space s = true)
  /\ (all_space s = true -> run toupper_full s = []).
Proof.
  split; [apply normalize_empty_iff_blank_aux|].
  intros H. unfold run. cbv zeta.
  now rewrite (proj2 (normalize_empty_iff_blank_aux s) H).
Qed.

(** X12: white space around the argument does not change the result of
    [normalize], nor that of [Runner.run]. *)
Theorem surrounding_space_is_ignored
    (toupper_full : char -> pystr) (a s b : pystr) :
  all_space a = true ->
  all_space b = true ->
  normalize (a ++ s ++ b) = normalize s
  /\ run toupper_full (a ++ s ++ b) = run toupper_full s.
Proof.
  intros Ha Hb.
  assert (E : normalize (a ++ s ++ b) = normalize s).
  { unfold normalize. cbv zeta.
    now rewrite strip_ignores_surrounding_space. }
  split; [exact E|]. unfold run. cbv zeta. now rewrite E.
Qed.

Lemma surrounding_space_is_ignored_witness :
  all_space [9; 32] = true
  /\ all_space [160; 10] = true
  /\ normalize ([9; 32] ++ lit "a-b c" ++ [160; 10]) = lit "a_b c"
  /\ run toupper_ascii ([9; 32] ++ lit "a-b c" ++ [160; 10]) = lit "A_B C".
Proof.
  assert (Ha : all_space [9; 32] = true) by reflexivity.
  assert (Hb : all_space [160; 10] = true) by reflexivity.
  destruct (@surrounding_space_is_ignored toupper_ascii [9; 32]
              (lit "a-b c") [160; 10] Ha Hb) as [E1 E2].
  split; [exact Ha|]. split; [exact Hb|]. split.
  - exact E1.
  - exact E2.
Defined.

(** X13: [normalize] never lengthens a string, and it changes nothing but
    hyphens: every character of the result other than the underscore was
    in the argument. *)
Theorem normalize_shrinks_and_keeps_characters (s : pystr) :
  (List.length (normalize s) <= List.length s)%nat
  /\ forall c, In c (normalize s) -> c = underscore \/ In c s.
Proof.
  unfold normalize. cbv zeta. split.
  - unfold replace. rewrite length_map. unfold strip.
    destruct (rstrip_prefix (lstrip s)) as [post E].
    destruct (dropwhile_suffix isspace s) as [pre E'].
    fold (lstrip s) in E'.
    apply (f_equal (@List.length char)) in E, E'.
    rewrite length_app in E, E'. unfold pystr, char in *. lia.
  - intros c H. unfold replace in H. apply in_map_iff in H as (x & Hx & Hi).
    destruct (x =? hyphen); [now left|]. subst x. right.
    unfold strip in Hi.
    destruct (rstrip_prefix (lstrip s)) as [post E].
    destruct (dropwhile_suffix isspace s) as [pre E'].
    fold (lstrip s) in E'. rewrite E', E. apply in_or_app. right.
    apply in_or_app. now left.
Qed.

Lemma has_char_app c a b : has_char c (a ++ b) = has_char c a || has_char c b.
Proof. apply existsb_app. Qed.

Lemma has_char_flat_map c (f : char -> pystr) s :
  (forall x, In x s -> has_char c (f x) = false) ->
  has_char c (flat_map f s) = false.
Proof.
  induction s as [|x r IH]; [reflexivity|].
  intros H. cbn [flat_map]. rewrite has_char_app, H by now left.
  apply IH. intros y Hy. apply H. now right.
Qed.

Lemma has_char_false_not_in c s : has_char c s = false -> ~ In c s.
Proof.
  unfold has_char. intros H I.
  assert (E : existsb (N.eqb c) s = true).
  { apply existsb_exists. exists c. split; [exact I | apply N.eqb_refl]. }
  congruence.
Qed.

(** X14: when the upper-case table never yields a hyphen for a character
    other than the hyphen, the result of [Runner.run] holds no hyphen. *)
Theorem run_has_no_hyphen (toupper_full : char -> pystr) (s : pystr) :
  (forall c, c <> hyphen -> has_char hyphen (toupper_full c) = false) ->
  has_char hyphen (run toupper_full s) = false.
Proof.
  intros T. unfold run, upper. cbv zeta.
  apply has_char_flat_map. intros x Hx. apply T. intros ->.
  exact (has_char_false_not_in _ _ (normalize_no_hyphen s) Hx).
Qed.

Lemma toupper_ascii_no_hyphen c :
  c <> hyphen -> has_char hyphen (toupper_ascii c) = false.
Proof.
  unfold hyphen, toupper_ascii. intros H.
  destruct ((97 <=? c) && (c <=? 122)) eqn:E; cbn [has_char existsb];
    rewrite orb_false_r; apply N.eqb_neq.
  - apply andb_true_iff in E as [E _]. apply N.leb_le in E. lia.
  - congruence.
Qed.

Lemma run_has_no_hyphen_witness :
  (forall c, c <> hyphen -> has_char hyphen (toupper_ascii c) = false)
  /\ has_char hyphen (run toupper_ascii (lit " re-try -x ")) = false.
Proof.
  split; [exact toupper_ascii_no_hyphen|].
  exact (run_has_no_hyphen toupper_ascii (lit " re-try -x ")
           toupper_ascii_no_hyphen).
Defined.

Lemma split_no_sep sep x : has_char sep x = false -> split sep x = [x].
Proof.
  induction x as [|c r IH]; [reflexivity|].
  unfold has_char. cbn [existsb split]. rewrite orb_false_iff.
  intros [Hc Hr]. rewrite N.eqb_sym, Hc.
  now rewrite (IH Hr).
Qed.

Lemma split_app_sep sep x t :
  has_char sep x = false -> split sep (x ++ sep :: t) = x :: split sep t.
Proof.
  induction x as [|c r IH].
  - intros _. cbn [app split]. now rewrite N.eqb_refl.
  - unfold has_char. cbn [existsb app split]. rewrite orb_false_iff.
    intros [Hc Hr]. rewrite N.eqb_sym, Hc.
    now rewrite (IH Hr).
Qed.

Lemma split_join sep x parts :
  forallb (fun y => negb (has_char sep y)) (x :: parts) = true ->
  split sep (join [sep] (x :: parts)) = x :: parts.
Proof.
  revert x. induction parts as [|y rest IH]; intros x H.
  - cbn [forallb] in H. rewrite andb_true_r, negb_true_iff in H.
    now apply split_no_sep.
  - cbn [forallb] in H. apply andb_true_iff in H as [Hx Hr].
    apply negb_true_iff in Hx.
    change (join [sep] (x :: y :: rest))
      with (x ++ sep :: join [sep] (y :: rest)).
    rewrite split_app_sep by exact Hx. f_equal. now apply IH.
Qed.

Lemma split_pieces sep s :
  forallb (fun y => negb (has_char sep y)) (split sep s) = true.
Proof.
  induction s as [|c r IH]; [reflexivity|].
  cbn [split]. destruct (c =? sep) eqn:E.
  - cbn [forallb]. now rewrite IH.
  - destruct (split sep r) as [|q qs].
    { cbn [forallb]. unfold has_char. cbn [existsb].
      now rewrite N.eqb_sym, E. }
    cbn [forallb] in *. apply andb_true_iff in IH as [Hq Hqs].
    rewrite Hqs, andb_true_r.
    unfold has_char in *. cbn [existsb]. now rewrite N.eqb_sym, E.
Qed.

Lemma filter_all {A} (f : A -> bool) l : forallb f l = true -> filter f l = l.
Proof.
  induction l as [|a r IH]; [reflexivity|].
  cbn [forallb filter]. rewrite andb_true_iff. intros [Ha Hr].
  now rewrite Ha, IH.
Qed.

Lemma components_kept parts :
  forallb is_component parts = true ->
  forallb (fun x => negb (str_eqb x []) && negb (str_eqb x (lit "."))) parts
  = true
  /\ forallb (fun y => negb (has_char slash y)) parts = true.
Proof.
  induction parts as [|x r IH]; [now split|].
  cbn [forallb]. unfold is_component at 1.
  rewrite !andb_true_iff. intros [[Hx Hs] Hr].
  destruct (IH Hr) as [I1 I2]. rewrite I1, I2. tauto.
Qed.

Lemma component_head x :
  is_component x = true ->
  exists c r, x = c :: r /\ (c =? slash) = false.
Proof.
  unfold is_component. rewrite !andb_true_iff, !negb_true_iff.
  intros [[Hn _] Hs]. destruct x as [|c r]; [discriminate|].
  exists c, r. split; [reflexivity|].
  unfold has_char in Hs. cbn [existsb] in Hs.
  apply orb_false_iff in Hs as [Hc _]. now rewrite N.eqb_sym.
Qed.

(** The tail that [path_str] keeps of a rest, for a rest that is already the
    join of components. *)
Lemma tail_of_join x parts :
  forallb is_component (x :: parts) = true ->
  filter (fun y => negb (str_eqb y []) && negb (str_eqb y (lit ".")))
    (split slash (join [slash] (x :: parts)))
  = x :: parts.
Proof.
  intros H. destruct (components_kept _ H) as [K S].
  rewrite split_join by exact S. now apply filter_all.
Qed.

Lemma join_head x parts c r :
  x = c :: r -> exists t, join [slash] (x :: parts) = c :: t.
Proof.
  intros ->. destruct parts; cbn [join app]; eauto.
Qed.

(** [path_str] leaves a path in normal form as it is: a root of no, one or
    two slashes followed by components joined by single slashes. *)
Lemma path_str_normal root parts :
  In root [[]; [slash]; [slash; slash]] ->
  forallb is_component parts = true ->
  path_str (root ++ join [slash] parts)
  = match root ++ join [slash] parts with
    | [] => lit "."
    | _ => root ++ join [slash] parts
    end.
Proof.
  intros R H. destruct parts as [|x parts].
  - destruct R as [<- | [<- | [<- | []]]]; reflexivity.
  - destruct (@component_head x) as (c & r & Ex & Ec).
    { cbn [forallb] in H. now apply andb_true_iff in H as [H _]. }
    destruct (@join_head x parts c r Ex) as [t Et].
    pose proof (@tail_of_join _ _ H) as T.
    unfold path_str. unfold pystr in *.
    destruct R as [<- | [<- | [<- | []]]].
    + cbn [app]. rewrite Et. cbn [splitroot]. rewrite Ec. cbn [negb].
      rewrite <- Et, T. cbn [app]. now rewrite Et.
    + cbn [app]. rewrite Et. cbn [splitroot].
      change (slash =? slash) with true. rewrite Ec. cbn [negb].
      rewrite <- Et, T. reflexivity.
    + cbn [app]. rewrite Et. cbn [splitroot].
      change (slash =? slash) with true. rewrite Ec. cbn [negb].
      rewrite <- Et, T. reflexivity.
Qed.

Lemma splitroot_root p :
  In (fst (splitroot p)) [[]; [slash]; [slash; slash]].
Proof.
  unfold splitroot.
  destruct p as [|c0 [|c1 [|c2 r]]]; cbn [In fst];
    repeat match goal with
           | |- context [if ?b then _ else _] => destruct b
           end; cbn [In fst]; auto.
Qed.

Lemma kept_are_components rel :
  forallb is_component
    (filter (fun y => negb (str_eqb y []) && negb (str_eqb y (lit ".")))
       (split slash rel)) = true.
Proof.
  pose proof (split_pieces slash rel) as S.
  induction (split slash rel) as [|x r IH]; [reflexivity|].
  cbn [forallb] in S. apply andb_true_iff in S as [Sx Sr].
  cbn [filter].
  destruct (negb (str_eqb x []) && negb (str_eqb x (lit "."))) eqn:E.
  - cbn [forallb]. unfold is_component at 1. now rewrite E, Sx, IH.
  - now apply IH.
Qed.

(** X15: when the working directory is an absolute path in normal form, a
    slash followed by components (non-empty, not [.], free of slashes)
    joined by single slashes, [use_path] returns it unchanged. *)
Theorem use_path_returns_normal_cwd (p : process) (parts : list pystr) :
  forallb is_component parts = true ->
  cwd p = absolute parts ->
  fst (use_path p) = cwd p.
Proof.
  intros H E. unfold use_path, getcwd. cbn [fst]. rewrite E.
  unfold absolute.
  change (slash :: join [slash] parts) with ([slash] ++ join [slash] parts).
  rewrite path_str_normal; auto. cbn [In]. auto.
Qed.

Lemma use_path_returns_normal_cwd_witness :
  forallb is_component [lit "home"; lit "dev"; lit "my.repo"] = true
  /\ cwd {| cwd := lit "/home/dev/my.repo" |}
     = absolute [lit "home"; lit "dev"; lit "my.repo"]
  /\ fst (use_path {| cwd := lit "/home/dev/my.repo" |})
     = lit "/home/dev/my.repo".
Proof.
  assert (H : forallb is_component [lit "home"; lit "dev"; lit "my.repo"]
              = true) by reflexivity.
  assert (E : cwd {| cwd := lit "/home/dev/my.repo" |}
              = absolute [lit "home"; lit "dev"; lit "my.repo"])
    by reflexivity.
  split; [exact H|]. split; [exact E|].
  exact (@use_path_returns_normal_cwd {| cwd := lit "/home/dev/my.repo" |}
           [lit "home"; lit "dev"; lit "my.repo"] H E).
Defined.

Lemma path_str_form q :
  exists root parts,
    In root [[]; [slash]; [slash; slash]]
    /\ forallb is_component parts = true
    /\ path_str q = match root ++ join [slash] parts with
                    | [] => lit "."
                    | _ => root ++ join [slash] parts
                    end.
Proof.
  pose proof (splitroot_root q) as R. unfold path_str.
  destruct (splitroot q) as [root rel]. cbn [fst] in R.
  exists root. eexists. split; [exact R|].
  split; [apply (kept_are_components rel) | reflexivity].
Qed.

(** X16: the string [use_path] returns is in normal form: making a path of
    it again and asking for its string gives the same string, whatever the
    working directory was. *)
Theorem use_path_result_is_normal (p : process) :
  path_str (fst (use_path p)) = fst (use_path p).
Proof.
  unfold use_path, getcwd. cbn [fst].
  destruct (path_str_form (cwd p)) as (root & parts & R & K & E).
  rewrite E. pose proof (@path_str_normal _ _ R K) as N.
  destruct (root ++ join [slash] parts) as [|c l].
  - reflexivity.
  - exact N.
Qed.

End EdgeCasesMore.

(** ** What the script prints reads back as the response *)

Module RoundTrip.

Import EncoderFacts DefaultAgent DefaultAgentSpec Observations JsonText.

Lemma shiftl_lor_add a n b : b < 2 ^ n -> N.lor (N.shiftl a n) b = a * 2 ^ n + b.
Proof.
  intros H.
  assert (L : N.land (N.shiftl a n) b = 0).
  { apply N.bits_inj. intros m. rewrite N.land_spec, N.bits_0.
    destruct (N.lt_ge_cases m n) as [Hm | Hm].
    - now rewrite N.shiftl_spec_low.
    - rewrite <- (N.mod_small b (2 ^ n)) by exact H.
      rewrite N.mod_pow2_bits_high by exact Hm. apply andb_false_r. }
  rewrite <- N.lxor_lor by exact L.
  rewrite <- N.add_nocarry_lxor by exact L.
  now rewrite N.shiftl_mul_pow2.
Qed.

Lemma land_1023 x : N.land x 1023 = x mod 1024.
Proof. change 1023 with (N.ones 10). now rewrite N.land_ones. Qed.

Lemma land_15 x : N.land x 15 = x mod 16.
Proof. change 15 with (N.ones 4). now rewrite N.land_ones. Qed.

Lemma high_surrogate_value c :
  high_surrogate c = 55296 + ((c - 65536) / 1024) mod 1024.
Proof.
  unfold high_surrogate. rewrite land_1023, N.shiftr_div_pow2.
  change 55296 with (N.shiftl 54 10) at 1.
  rewrite shiftl_lor_add; [reflexivity|].
  apply N.mod_lt. discriminate.
Qed.

Lemma low_surrogate_value c :
  low_surrogate c = 56320 + (c - 65536) mod 1024.
Proof.
  unfold low_surrogate. rewrite land_1023.
  change 56320 with (N.shiftl 55 10) at 1.
  rewrite shiftl_lor_add; [reflexivity|].
  apply N.mod_lt. discriminate.
Qed.

Lemma join_surrogates_value hi lo :
  55296 <= hi -> 56320 <= lo -> lo < 57344 ->
  join_surrogates hi lo = 65536 + (hi - 55296) * 1024 + (lo - 56320).
Proof.
  intros Hh Hl Hu. unfold join_surrogates.
  rewrite shiftl_lor_add; [change (2 ^ 10) with 1024; lia|].
  change (2 ^ 10) with 1024. lia.
Qed.

Lemma hex_val_hexdigit d : d < 16 -> hex_val (hexdigit d) = Some d.
Proof.
  intros H.
  assert (E : d = 0 \/ d = 1 \/ d = 2 \/ d = 3 \/ d = 4 \/ d = 5 \/ d = 6
              \/ d = 7 \/ d = 8 \/ d = 9 \/ d = 10 \/ d = 11 \/ d = 12
              \/ d = 13 \/ d = 14 \/ d = 15) by lia.
  repeat (destruct E as [-> | E]; [reflexivity|]). now subst d.
Qed.

Lemma nibbles_value n :
  n < 65536 ->
  4096 * ((n / 4096) mod 16) + 256 * ((n / 256) mod 16)
  + 16 * ((n / 16) mod 16) + n mod 16 = n.
Proof.
  intros H.
  pose proof (N.div_mod n 16 ltac:(discriminate)) as E0.
  pose proof (N.div_mod (n / 16) 16 ltac:(discriminate)) as E1.
  pose proof (N.div_mod (n / 16 / 16) 16 ltac:(discriminate)) as E2.
  rewrite !N.Div0.div_div in E1, E2.
  rewrite ?N.Div0.div_div in E2.
  change (16 * 16) with 256 in *. change (256 * 16) with 4096 in *.
  assert (S3 : n / 4096 < 16) by (apply N.Div0.div_lt_upper_bound; lia).
  rewrite (N.mod_small (n / 4096) 16) by exact S3.
  lia.
Qed.

Lemma hex4_reads_back n tl :
  n < 65536 ->
  exists a b c d,
    hex4 n ++ tl = a :: b :: c :: d :: tl /\ hex4_val a b c d = Some n.
Proof.
  intros H. unfold hex4. do 4 eexists. split; [reflexivity|].
  unfold hex4_val. rewrite !hex_val_hexdigit by apply low_nibble_bound.
  f_equal. rewrite !land_15, !N.shiftr_div_pow2.
  change (2 ^ 12) with 4096. change (2 ^ 8) with 256. change (2 ^ 4) with 16.
  now apply nibbles_value.
Qed.

Lemma scalar_bounds c :
  is_scalar_char c = true -> c < 55296 \/ (57343 < c /\ c < 1114112).
Proof.
  unfold is_scalar_char. rewrite orb_true_iff, andb_true_iff, !N.ltb_lt. tauto.
Qed.

Lemma surrogates_of_scalar c :
  65536 <= c -> c < 1114112 ->
  high_surrogate c < 65536
  /\ low_surrogate c < 65536
  /\ is_high_surrogate (high_surrogate c) = true
  /\ is_low_surrogate (low_surrogate c) = true
  /\ join_surrogates (high_surrogate c) (low_surrogate c) = c.
Proof.
  intros Hl Hu.
  pose proof (high_surrogate_value c) as Vh.
  pose proof (low_surrogate_value c) as Vl.
  assert (Q : (c - 65536) / 1024 < 1024)
    by (apply N.Div0.div_lt_upper_bound; lia).
  rewrite (N.mod_small _ _ Q) in Vh.
  pose proof (N.mod_lt (c - 65536) 1024 ltac:(discriminate)) as R.
  pose proof (N.div_mod (c - 65536) 1024 ltac:(discriminate)) as D.
  remember ((c - 65536) / 1024) as q eqn:Eq_q.
  remember ((c - 65536) mod 1024) as r eqn:Eq_r.
  clear Eq_q Eq_r.
  unfold is_high_surrogate, is_low_surrogate.
  rewrite !andb_true_iff, !N.leb_le, Vh, Vl.
  repeat split; try lia.
  rewrite join_surrogates_value by lia. lia.
Qed.

Lemma after_bmp_escape u acc tl :
  is_high_surrogate u = false ->
  match tl with
  | b :: u' :: l1 :: l2 :: l3 :: l4 :: r3 =>
      match (if is_high_surrogate u then low_surrogate_at tl else None) with
      | Some (lo, _) => read_string (join_surrogates u lo :: acc) r3
      | None => read_string (u :: acc) tl
      end
  | _ => read_string (u :: acc) tl
  end = read_string (u :: acc) tl.
Proof.
  intros ->. now destruct tl as [|? [|? [|? [|? [|? [|? ?]]]]]].
Qed.

Lemma read_escape c acc tl :
  is_scalar_char c = true ->
  read_string acc (escape_ascii c ++ tl) = read_string (c :: acc) tl.
Proof.
  intros Hs. apply scalar_bounds in Hs. unfold escape_ascii.
  destruct (c =? backslash) eqn:Eb.
  { apply N.eqb_eq in Eb. subst c. reflexivity. }
  destruct (c =? dquote) eqn:Eq.
  { apply N.eqb_eq in Eq. subst c. reflexivity. }
  destruct ((32 <=? c) && (c <=? 126)) eqn:Ep.
  { apply andb_true_iff in Ep as [P1 P2].
    apply N.leb_le in P1, P2.
    cbn [app read_string]. rewrite Eq, Eb.
    replace (c <? 32) with false by (symmetry; apply N.ltb_ge; lia).
    replace (127 <? c) with false by (symmetry; apply N.ltb_ge; lia).
    reflexivity. }
  destruct (c =? 8) eqn:E8.
  { apply N.eqb_eq in E8. subst c. reflexivity. }
  destruct (c =? 12) eqn:E12.
  { apply N.eqb_eq in E12. subst c. reflexivity. }
  destruct (c =? 10) eqn:E10.
  { apply N.eqb_eq in E10. subst c. reflexivity. }
  destruct (c =? 13) eqn:E13.
  { apply N.eqb_eq in E13. subst c. reflexivity. }
  destruct (c =? 9) eqn:E9.
  { apply N.eqb_eq in E9. subst c. reflexivity. }
  destruct (c <? 65536) eqn:E16.
  - apply N.ltb_lt in E16.
    destruct (hex4_reads_back tl E16) as (h1 & h2 & h3 & h4 & E & V).
    change (u_escape c ++ tl) with (backslash :: 117 :: (hex4 c ++ tl)).
    rewrite E.
    change (read_string acc (backslash :: 117 :: h1 :: h2 :: h3 :: h4 :: tl))
      with (match hex4_val h1 h2 h3 h4 with
            | None => None
            | Some u =>
                match tl with
                | b :: u' :: l1 :: l2 :: l3 :: l4 :: r3 =>
                    match (if is_high_surrogate u
                           then low_surrogate_at tl else None) with
                    | Some (lo, _) =>
                        read_string (join_surrogates u lo :: acc) r3
                    | None => read_string (u :: acc) tl
                    end
                | _ => read_string (u :: acc) tl
                end
            end).
    rewrite V. apply after_bmp_escape.
    unfold is_high_surrogate. apply andb_false_iff.
    destruct Hs as [Hs | [Hs _]]; [left; apply N.leb_gt | right; apply N.leb_gt];
      lia.
  - apply N.ltb_ge in E16.
    assert (Hu : c < 1114112) by lia.
    destruct (surrogates_of_scalar E16 Hu) as (Bh & Bl & Ih & Il & J).
    rewrite <- app_assoc.
    destruct (hex4_reads_back (u_escape (low_surrogate c) ++ tl) Bh)
      as (h1 & h2 & h3 & h4 & E & V).
    destruct (hex4_reads_back tl Bl) as (l1 & l2 & l3 & l4 & E' & V').
    change (u_escape (high_surrogate c) ++ u_escape (low_surrogate c) ++ tl)
      with (backslash :: 117
            :: (hex4 (high_surrogate c) ++ u_escape (low_surrogate c) ++ tl)).
    rewrite E.
    change (u_escape (low_surrogate c) ++ tl)
      with (backslash :: 117 :: (hex4 (low_surrogate c) ++ tl)).
    rewrite E'.
    change (read_string acc
              (backslash :: 117 :: h1 :: h2 :: h3 :: h4
               :: backslash :: 117 :: l1 :: l2 :: l3 :: l4 :: tl))
      with (match hex4_val h1 h2 h3 h4 with
            | None => None
            | Some u =>
                match
                  (if is_high_surrogate u
                   then
                     match hex4_val l1 l2 l3 l4 with
                     | Some lo =>
                         if is_low_surrogate lo then Some (lo, tl) else None
                     | None => None
                     end
                   else None)
                with
                | Some (lo, _) =>
                    read_string (join_surrogates u lo :: acc) tl
                | None =>
                    read_string (u :: acc)
                      (backslash :: 117 :: l1 :: l2 :: l3 :: l4 :: tl)
                end
            end).
    now rewrite V, Ih, V', Il, J.
Qed.

Lemma read_escaped s : forall acc tl,
  is_scalar s = true ->
  read_string acc (flat_map escape_ascii s ++ dquote :: tl)
  = Some (rev acc ++ s, tl).
Proof.
  induction s as [|c r IH]; intros acc tl H.
  - cbn [flat_map app read_string]. change (dquote =? dquote) with true.
    cbv iota. now rewrite app_nil_r.
  - unfold is_scalar in H. cbn [forallb] in H.
    apply andb_true_iff in H as [Hc Hr].
    cbn [flat_map]. rewrite <- app_assoc. rewrite read_escape by exact Hc.
    rewrite IH by exact Hr. cbn [rev]. now rewrite <- app_assoc.
Qed.

Lemma read_value_string fuel s tl :
  is_scalar s = true ->
  read_value (S fuel) (encode_basestring_ascii s ++ tl) = Some (VStr s, tl).
Proof.
  intros H. unfold encode_basestring_ascii.
  change ((dquote :: flat_map escape_ascii s ++ [dquote]) ++ tl)
    with (dquote :: ((flat_map escape_ascii s ++ [dquote]) ++ tl)).
  rewrite <- app_assoc.
  change (read_value (S fuel)
            (dquote :: flat_map escape_ascii s ++ [dquote] ++ tl))
    with (match read_string [] (flat_map escape_ascii s ++ dquote :: tl) with
          | Some (x, r') => Some (VStr x, r')
          | None => None
          end).
  now rewrite read_escaped.
Qed.

Local Arguments encode_basestring_ascii : simpl never.

Section Members.

Variable rv : pystr -> option (value * pystr).
Hypothesis rv_string :
  forall s tl,
    is_scalar s = true ->
    rv (encode_basestring_ascii s ++ tl) = Some (VStr s, tl).

(** One member whose value is a string, and what follows it. *)
Lemma read_member fuel acc k v rest :
  is_scalar k = true ->
  is_scalar v = true ->
  read_members rv (S fuel) acc
    (encode_basestring_ascii k ++ lit ": " ++ encode_basestring_ascii v
     ++ rest)
  = match skip_ws rest with
    | c2 :: r4 =>
        if c2 =? 125 then Some (dict_set k (VStr v) acc, r4)
        else if c2 =? 44 then
          read_members rv fuel (dict_set k (VStr v) acc) (skip_ws r4)
        else None
    | [] => None
    end.
Proof.
  intros Hk Hv. unfold encode_basestring_ascii at 1. simpl.
  rewrite <- app_assoc. cbn [app].
  rewrite read_escaped by exact Hk. simpl.
  change (dquote :: (flat_map escape_ascii v ++ [dquote]) ++ rest)
    with (encode_basestring_ascii v ++ rest).
  rewrite rv_string by exact Hv. reflexivity.
Qed.

Lemma read_member_then fuel acc k v k' tl :
  is_scalar k = true ->
  is_scalar v = true ->
  read_members rv (S fuel) acc
    (encode_basestring_ascii k ++ lit ": " ++ encode_basestring_ascii v
     ++ lit ", " ++ encode_basestring_ascii k' ++ tl)
  = read_members rv fuel (dict_set k (VStr v) acc)
      (encode_basestring_ascii k' ++ tl).
Proof. intros Hk Hv. rewrite read_member by assumption. reflexivity. Qed.

Lemma read_member_last fuel acc k v tl :
  is_scalar k = true ->
  is_scalar v = true ->
  read_members rv (S fuel) acc
    (encode_basestring_ascii k ++ lit ": " ++ encode_basestring_ascii v
     ++ lit "}" ++ tl)
  = Some (dict_set k (VStr v) acc, tl).
Proof. intros Hk Hv. rewrite read_member by assumption. reflexivity. Qed.

End Members.

Lemma read_object fuel k tl :
  read_value (S fuel) (lit "{" ++ encode_basestring_ascii k ++ tl)
  = match
      read_members (read_value fuel)
        (List.length (encode_basestring_ascii k ++ tl)) []
        (encode_basestring_ascii k ++ tl)
    with
    | Some (d, r) => Some (VDict d, r)
    | None => None
    end.
Proof. reflexivity. Qed.

Lemma encoded_length s tl :
  List.length (encode_basestring_ascii s ++ tl)
  = S (List.length (flat_map escape_ascii s ++ [dquote] ++ tl)).
Proof.
  unfold encode_basestring_ascii. cbn [app List.length].
  now rewrite <- app_assoc.
Qed.

(** The line of a dict of four strings reads back as that dict. *)
Lemma loads_four float_repr s p a b :
  is_scalar s = true -> is_scalar p = true ->
  is_scalar a = true -> is_scalar b = true ->
  loads (dumps float_repr (four_strings s p a b) ++ [10])
  = Ok (four_strings s p a b).
Proof.
  intros Hs Hp Ha Hb. unfold four_strings. cbn [dumps join].
  rewrite <- !app_assoc. unfold loads.
  match goal with
  | |- context [skip_ws (lit "{" ++ ?X)] =>
      change (skip_ws (lit "{" ++ X)) with (lit "{" ++ X);
      change (List.length (lit "{" ++ X)) with (S (List.length X));
      remember (List.length X) as n eqn:En
  end.
  rewrite read_object. rewrite <- En.
  assert (F : exists m, n = S (S (S (S m)))).
  { assert (G : (4 <= n)%nat).
    { rewrite En, length_app, length_app.
      change (List.length (lit ": ")) with 2%nat.
      unfold encode_basestring_ascii at 1. cbn [List.length].
      rewrite length_app. cbn [List.length]. lia. }
    destruct n as [|[|[|[|m]]]]; try lia. now exists m. }
  destruct F as [m ->]. clear En.
  assert (R : forall x tl,
             is_scalar x = true ->
             read_value (S (S (S (S (S m))))) (encode_basestring_ascii x ++ tl)
             = Some (VStr x, tl)).
  { intros x tl Hx. now apply read_value_string. }
  rewrite !(read_member_then _ R) by reflexivity || assumption.
  rewrite (read_member_last _ R) by reflexivity || assumption.
  reflexivity.
Qed.

Lemma scalar_app a b : is_scalar (a ++ b) = is_scalar a && is_scalar b.
Proof. apply forallb_app. Qed.

(** X17: the line a successful run prints is JSON that reads back as the
    response dict the script built, when the texts of the name, the kind
    and the path hold Unicode scalar values only (no surrogate code
    points): the quotes, backslashes, control characters and non-ASCII
    characters of the fields are all escaped so that they decode to
    themselves. *)
Theorem printed_line_reads_back
    (float_repr : spec_float -> pystr) (str_repr : pystr -> pystr)
    (request : value) (d : list (pystr * value)) :
  symbol_of request = Ok (VDict d) ->
  is_scalar (format float_repr str_repr (name_in d)) = true ->
  is_scalar (format float_repr str_repr (kind_in d)) = true ->
  is_scalar (format float_repr str_repr (path_in d)) = true ->
  loads (stdout (run_document float_repr str_repr request))
  = respond float_repr str_repr request.
Proof.
  intros E Hn Hk Hp.
  rewrite (run_document_of_symbol float_repr str_repr _ E).
  rewrite (respond_of_symbol float_repr str_repr _ E).
  cbn [stdout]. rewrite <- (dumps_four float_repr).
  apply loads_four; try reflexivity.
  - unfold summary_text. cbv zeta. now rewrite !scalar_app, Hk, Hn, Hp.
  - unfold purpose_text. cbv zeta. now rewrite !scalar_app, Hn.
Qed.

Lemma printed_line_reads_back_witness :
  symbol_of
    (request_with
       [(lit "name", VStr (lit "say " ++ [34; 233; 10; 92; 128512; 34]));
        (lit "kind", VBool true)])
  = Ok (VDict
          [(lit "name", VStr (lit "say " ++ [34; 233; 10; 92; 128512; 34]));
           (lit "kind", VBool true)])
  /\ loads
       (stdout
          (run_document float_repr_unused str_repr_unused
             (request_with
                [(lit "name",
                  VStr (lit "say " ++ [34; 233; 10; 92; 128512; 34]));
                 (lit "kind", VBool true)])))
     = Ok (four_strings
             (lit "True say " ++ [34; 233; 10; 92; 128512; 34] ++ lit " in .")
             (lit "Describe responsibilities of say "
              ++ [34; 233; 10; 92; 128512; 34] ++ lit ".")
             (lit "Unknown from static analysis.") (lit "medium")).
Proof.
  assert (E : symbol_of
                (request_with
                   [(lit "name",
                     VStr (lit "say " ++ [34; 233; 10; 92; 128512; 34]));
                    (lit "kind", VBool true)])
              = Ok (VDict
                      [(lit "name",
                        VStr (lit "say " ++ [34; 233; 10; 92; 128512; 34]));
                       (lit "kind", VBool true)])) by reflexivity.
  split; [exact E|].
  exact (@printed_line_reads_back float_repr_unused str_repr_unused _ _ E
           eq_refl eq_refl eq_refl).
Defined.

End RoundTrip.
